(** * impression_affection_plugin: the incremental enrichment pipeline

    A shallow embedding of the Python services of the plugin
    ([services/weight_service.py], [services/text_impression_service.py],
    [services/message_service.py], the models they use and the admission
    block of [plugin.py]) together with the properties the specification
    states about them.

    Conventions of the embedding:
    - a Python [str] is the list of its Unicode code points, so that [len]
      is [length] and a slice is [take]/[drop];
    - a Python [float] is one of its values: a rational, an infinity or NaN;
    - [datetime.now()] is an explicit argument (a count of microseconds);
    - a [dict] is a [gmap]; a JSON object keeps its pairs in a list;
    - the peewee tables are finite maps and lists of rows, and every storage
      operation succeeds (the [except] branches around them are therefore
      not taken);
    - an exception is a value [Raise msg], where [msg] is [str(e)]. *)

From Stdlib Require Import ZArith QArith Ascii String List Lia.
From stdpp Require Import base decidable option numbers list gmap fin_maps pretty sorting.

Set Warnings "-register-all".

Local Open Scope Z_scope.

(** ** Python strings *)

Abbreviation pystr := (list N).

(** Decoding of a UTF-8 literal into code points: [acc] holds the bits read
    so far of a multi-byte sequence and [k] the continuation bytes missing. *)
Fixpoint utf8_go (s : string) (acc : N) (k : nat) : pystr :=
  match s with
  | EmptyString => []
  | String a r =>
      let b := N_of_ascii a in
      match k with
      | S k' =>
          let acc' := (acc * 64 + b mod 64)%N in
          match k' with
          | O => acc' :: utf8_go r 0%N O
          | S _ => utf8_go r acc' k'
          end
      | O =>
          if (b <? 128)%N then b :: utf8_go r 0%N O
          else if (b <? 224)%N then utf8_go r (b mod 32)%N 1%nat
          else if (b <? 240)%N then utf8_go r (b mod 16)%N 2%nat
          else utf8_go r (b mod 8)%N 3%nat
      end
  end.

Definition py (s : string) : pystr := utf8_go s 0%N O.

(** [Py_UNICODE_ISSPACE]: the characters [str.strip()] removes and the
    regular expression class [\s] accepts on a [str] pattern. *)
Definition py_isspace (c : N) : bool :=
  ((9 <=? c) && (c <=? 13) || (28 <=? c) && (c <=? 32)
   || (c =? 133) || (c =? 160) || (c =? 5760)
   || (8192 <=? c) && (c <=? 8202)
   || (c =? 8232) || (c =? 8233) || (c =? 8239) || (c =? 8287)
   || (c =? 12288))%N.

Fixpoint lstrip (l : pystr) : pystr :=
  match l with
  | c :: r => if py_isspace c then lstrip r else l
  | [] => []
  end.

Definition rstrip (l : pystr) : pystr := rev (lstrip (rev l)).

(** [s.strip()] *)
Definition strip (l : pystr) : pystr := rstrip (lstrip l).

(** [l[:n]] for an integer [n] of either sign. *)
Definition slice_to {A} (l : list A) (n : Z) : list A :=
  if n <? 0 then take (Z.to_nat (Z.of_nat (length l) + n)) l
  else take (Z.to_nat n) l.

(** [l[n:]] for an integer [n] of either sign. *)
Definition slice_from {A} (l : list A) (n : Z) : list A :=
  if n <? 0 then drop (Z.to_nat (Z.of_nat (length l) + n)) l
  else drop (Z.to_nat n) l.

(** [s.find(c)] for a one-character needle: the first index, or [-1]. *)
Fixpoint find_char (c : N) (l : pystr) : Z :=
  match l with
  | [] => -1
  | x :: r =>
      if (x =? c)%N then 0
      else let i := find_char c r in if i <? 0 then -1 else i + 1
  end.

(** [s.rfind(c)]: the last index, or [-1]. *)
Fixpoint rfind_char (c : N) (l : pystr) : Z :=
  match l with
  | [] => -1
  | x :: r =>
      let i := rfind_char c r in
      if 0 <=? i then i + 1 else if (x =? c)%N then 0 else -1
  end.

(** ** Python floats *)

Inductive pyfloat :=
| FNum (q : Q)
| FInf (negative : bool)
| FNaN.

(** [a >= b] *)
Definition float_ge (a b : pyfloat) : bool :=
  match a, b with
  | FNaN, _ | _, FNaN => false
  | FNum x, FNum y => Qle_bool y x
  | FInf false, _ => true
  | _, FInf true => true
  | FInf true, _ => false
  | FNum _, FInf false => false
  end.

(** [a > b] *)
Definition float_gt (a b : pyfloat) : bool :=
  match a, b with
  | FNaN, _ | _, FNaN => false
  | FNum x, FNum y => negb (Qle_bool x y)
  | FInf false, FInf false => false
  | FInf false, _ => true
  | FInf true, _ => false
  | FNum _, FInf s => s
  end.

(** ** Exceptions *)

Inductive raised (A : Type) :=
| Ret (a : A)
| Raise (msg : pystr).
Arguments Ret {A} a.
Arguments Raise {A} msg.

Global Instance raised_ret : MRet raised := fun A a => Ret a.

Global Instance raised_bind : MBind raised := fun A B k m =>
  match m with
  | Ret a => k a
  | Raise e => Raise e
  end.

(** ** JSON values, as [json.loads] builds them *)

Inductive json :=
| JNull
| JBool (b : bool)
| JInt (z : Z)
| JFloat (f : pyfloat)
| JStr (s : pystr)
| JArr (items : list json)
| JObj (pairs : list (pystr * json)).

(** [d.get(k)] on the pairs of a dict, keys being unique. *)
Fixpoint dict_get (k : pystr) (d : list (pystr * json)) : option json :=
  match d with
  | [] => None
  | (k', v) :: r => if bool_decide (k' = k) then Some v else dict_get k r
  end.

(** [d[k] = v] *)
Fixpoint dict_set (k : pystr) (v : json) (d : list (pystr * json)) : list (pystr * json) :=
  match d with
  | [] => [(k, v)]
  | (k', v') :: r => if bool_decide (k' = k) then (k, v) :: r else (k', v') :: dict_set k v r
  end.

(** ** The part of the Python runtime the services call

    The Unicode tables behind [\d], [\w] and [str.lower], the conversions
    of [float()], [json.loads], [str.format] and the formatting of the
    context block are library code: the services are defined over any
    implementation of them. *)

Inductive loads_outcome :=
| Loaded (v : json)
| DecodeError
| OtherError (msg : pystr).

Class PyRuntime := {
  (** [Py_UNICODE_ISDECIMAL], the class [\d] *)
  py_isdecimal : N -> bool;
  (** [Py_UNICODE_ISALNUM]; [\w] is this or an underscore *)
  py_isalnum : N -> bool;
  (** [s.lower()] *)
  str_lower : pystr -> pystr;
  (** [float(s)] for a [str]; raises [ValueError] *)
  float_of_str : pystr -> raised pyfloat;
  (** [float(n)] for an [int]; raises [OverflowError] *)
  float_of_int : Z -> raised pyfloat;
  (** [str(e)] of the [TypeError] of [float(v)] on any other value *)
  float_type_error : json -> pystr;
  (** [json.loads(s)] *)
  json_loads : pystr -> loads_outcome;
  (** [template.format(k1=v1, ...)]; raises [KeyError], [IndexError] or
      [ValueError] on a template that does not fit the keywords *)
  str_format : pystr -> list (pystr * pystr) -> raised pystr;
  (** [timestamp.strftime('%m-%d %H:%M')] *)
  strftime_md_hm : Z -> pystr;
  (** [f"{x:.1f}"] *)
  format_1f : pyfloat -> pystr;
  (** [f"{v}"] *)
  str_of_value : json -> pystr
}.

(** ** The regular expressions of the parsers

    Every pattern of the two parsers is a literal key matched under
    [re.IGNORECASE], then [\s*], then one capturing group. *)

Definition ascii_lower (c : N) : N :=
  if ((65 <=? c) && (c <=? 90))%N then (c + 32)%N else c.

(** One literal character [p] of a pattern against the character [c] of the
    text, under [re.IGNORECASE] on a [str]: [c] matches when its simple
    lower-case mapping is the lower-case [p] or one of the two equivalents
    the engine adds (dotless i for i, long s for s). The letters of the
    patterns are ASCII; every other pattern character is uncased and
    matches itself only. *)
Definition ci_char (p c : N) : bool :=
  let lo := ascii_lower p in
  if ((97 <=? lo) && (lo <=? 122))%N then
    ((c =? lo) || (c =? lo - 32)
     || (lo =? 107) && (c =? 8490)
     || (lo =? 105) && ((c =? 304) || (c =? 305))
     || (lo =? 115) && (c =? 383))%N
  else (c =? p)%N.

(** The rest of the text after the literal [pat], when the text starts
    with it. *)
Fixpoint ci_prefix (pat l : pystr) : option pystr :=
  match pat, l with
  | [], _ => Some l
  | p :: pat', c :: l' => if ci_char p c then ci_prefix pat' l' else None
  | _ :: _, [] => None
  end.

(** Greedy [\s*] followed by [body], with backtracking: every white-space
    character is first consumed, and given back when [body] fails after it. *)
Fixpoint after_spaces {A} (body : pystr -> option A) (l : pystr) : option A :=
  match l with
  | c :: r =>
      if py_isspace c then
        match after_spaces body r with
        | Some g => Some g
        | None => body l
        end
      else body l
  | [] => body []
  end.

Fixpoint take_while (C : N -> bool) (l : pystr) : pystr :=
  match l with
  | c :: r => if C c then c :: take_while C r else []
  | [] => []
  end.

(** A greedy group [(C+)] that ends the pattern. *)
Definition class_run (C : N -> bool) (l : pystr) : option pystr :=
  match take_while C l with
  | [] => None
  | g => Some g
  end.

(** [re.search]: the match at the leftmost position that has one. *)
Fixpoint re_search {A} (m : pystr -> option A) (l : pystr) : option A :=
  match l with
  | [] => m []
  | _ :: r =>
      match m l with
      | Some g => Some g
      | None => re_search m r
      end
  end.

(** [re.search(key + r'\s*(C+)', content, re.IGNORECASE).group(1)] *)
Definition search_group (key : pystr) (C : N -> bool) (content : pystr) : option pystr :=
  re_search (fun l => rest ← ci_prefix key l; after_spaces (class_run C) rest) content.

(** Does the text start with the literal [pat], case-sensitively? *)
Fixpoint starts_with (pat l : pystr) : bool :=
  match pat, l with
  | [], _ => true
  | p :: pat', c :: l' => (p =? c)%N && starts_with pat' l'
  | _ :: _, [] => false
  end.

(** The lazy group and its terminator, [(.+?)(?:\n|;消息:|$)]: at least one
    character other than a line feed, up to the first position that holds a
    line feed, the literal [;消息:] or the end of the text. *)
Fixpoint lazy_until (stop : pystr) (l : pystr) : pystr :=
  match l with
  | [] => []
  | c :: r => if (c =? 10)%N || starts_with stop l then [] else c :: lazy_until stop r
  end.

Definition reason_group (l : pystr) : option pystr :=
  match l with
  | [] => None
  | c :: r => if (c =? 10)%N then None else Some (c :: lazy_until (py ";消息:") r)
  end.

(** ** models/ *)

(** [models/user_impression.py] *)
Record UserImpression := {
  ui_user_id : pystr;
  personality_traits : pystr;
  interests_hobbies : pystr;
  communication_style : pystr;
  emotional_tendencies : pystr;
  behavioral_patterns : pystr;
  values_attitudes : pystr;
  relationship_preferences : pystr;
  growth_development : pystr;
  affection_score : pyfloat;
  affection_level : pystr;
  message_count : Z;
  last_interaction : Z;
  created_at : Z;
  updated_at : Z
}.

(** [models/impression_message_record.py] *)
Record ImpressionMessageRecord := {
  imr_user_id : pystr;
  imr_message_id : pystr;
  impression_id : option pystr;
  processed_at : Z
}.

(** [models/user_message_state.py] *)
Record UserMessageState := {
  ums_user_id : pystr;
  last_message_id : option pystr;
  last_message_time : option Z;
  impression_update_count : Z;
  affection_update_count : Z;
  total_messages : Z;
  processed_messages : Z
}.

(** [UserMessageState.increment_counters] *)
Definition increment_counters (self : UserMessageState) (now : Z)
    (impression_updated affection_updated : bool) : UserMessageState :=
  {| ums_user_id := ums_user_id self;
     last_message_id := last_message_id self;
     last_message_time := Some now;
     impression_update_count :=
       if impression_updated then impression_update_count self + 1
       else impression_update_count self;
     affection_update_count :=
       if affection_updated then affection_update_count self + 1
       else affection_update_count self;
     total_messages := total_messages self + 1;
     processed_messages := processed_messages self + 1 |}.

(** ** services/weight_service.py *)

(** One entry of [message_weights[user_id]]: the tuple
    [(message_id, weight_score, weight_level, timestamp, message_content, context)]. *)
Record weight_record := {
  rec_message_id : pystr;
  rec_weight_score : pyfloat;
  rec_weight_level : json;
  rec_timestamp : Z;
  rec_message_content : pystr;
  rec_context : pystr
}.

Module WeightService.

(** What [__init__] and [_build_weight_prompt] read from the configuration:
    [high_weight_threshold], [medium_weight_threshold] and [filter_mode] of
    [weight_filter], and [weight_evaluation_prompt] of [prompts] (the empty
    text when it is not set). *)
Record config := {
  high_threshold : pyfloat;
  medium_threshold : pyfloat;
  filter_mode : pystr;
  weight_evaluation_prompt : pystr
}.

(** [self.message_weights], a [defaultdict(list)] *)
Abbreviation weights := (gmap pystr (list weight_record)).

Section Service.
Context {rt : PyRuntime}.
Variable self : config.
(** [self.llm_client.generate_weight_evaluation] *)
Variable generate_weight_evaluation : pystr -> bool * pystr.

Definition default_prompt_head : pystr := py
  "评估消息权重（0-100），用于判断是否用于构建用户印象。权重评估标准：高权重(70-100): 包含重要个人信息、兴趣爱好、价值观、情感表达、深度思考、独特观点、生活经历分享；中权重(40-69): 一般日常对话、简单提问、客观陈述、基础信息交流；低权重(0-39): 简单问候、客套话、无实质内容的互动、表情符号。特别注意：分享个人喜好（如书籍、音乐、电影等）、询问对方偏好、表达个人观点都应该给予较高权重。只返回键值对格式：WEIGHT_SCORE: 分数;WEIGHT_LEVEL: high/medium/low;REASON: 评估原因;消息: ".

Definition _build_weight_prompt (message context : pystr) : raised pystr :=
  let template := strip (weight_evaluation_prompt self) in
  match template with
  | _ :: _ =>
      str_format template [(py "message", message); (py "context", context)]
  | [] => Ret (default_prompt_head ++ message ++ py ";上下文: " ++ context)
  end.

(** The key-value strategy of [_parse_weight_response]: the dict it builds. *)
Definition weight_pairs (content : pystr) : list (pystr * json) :=
  let score_match :=
    search_group (py "WEIGHT_SCORE:") (fun c => py_isdecimal c || (c =? 46)%N) content in
  let level_match :=
    search_group (py "WEIGHT_LEVEL:") (fun c => py_isalnum c || (c =? 95)%N) content in
  let reason_match :=
    re_search (fun l => rest ← ci_prefix (py "REASON:") l;
                        after_spaces reason_group rest) content in
  let result := [] in
  let result :=
    match score_match with
    | Some g =>
        dict_set (py "weight_score")
          (JFloat match float_of_str g with Ret f => f | Raise _ => FNum 0 end) result
    | None => result
    end in
  let result :=
    match level_match with
    | Some g => dict_set (py "weight_level") (JStr (str_lower (strip g))) result
    | None => result
    end in
  match reason_match with
  | Some g => dict_set (py "reason") (JStr (strip g)) result
  | None => result
  end.

(** The JSON strategy: the text from the first [{] to the last [}]. *)
Definition weight_json (content : pystr) : raised (option (list (pystr * json))) :=
  let start := find_char 123 content in
  let end_ := rfind_char 125 content in
  if (0 <=? start) && (0 <=? end_) && (start <? end_) then
    let json_str := slice_to (slice_from content start) (end_ + 1 - start) in
    match json_loads json_str with
    | Loaded (JObj d) =>
        match dict_get (py "weight_score") d with
        | Some _ => Ret (Some d)
        | None => Ret None
        end
    | Loaded _ => Ret None
    | DecodeError => Ret None
    | OtherError e => Raise e
    end
  else Ret None.

Definition _parse_weight_response (content : pystr) : raised (option (list (pystr * json))) :=
  let content := strip content in
  if (length content <? 10)%nat then Ret None
  else
    let result := weight_pairs content in
    match result, dict_get (py "weight_score") result with
    | _ :: _, Some _ => Ret (Some result)
    | _, _ => weight_json content
    end.

(** [float(v)] *)
Definition py_float (v : json) : raised pyfloat :=
  match v with
  | JFloat f => Ret f
  | JInt z => float_of_int z
  | JBool b => Ret (FNum (if b then 1 else 0))
  | JStr s => float_of_str s
  | JNull | JArr _ | JObj _ => Raise (float_type_error v)
  end.

Definition _save_weight (mw : weights) (now : Z)
    (user_id message_id message context : pystr)
    (weight_score : pyfloat) (weight_level : json) : weights :=
  let appended :=
    default [] (mw !! user_id) ++
    [{| rec_message_id := message_id;
        rec_weight_score := weight_score;
        rec_weight_level := weight_level;
        rec_timestamp := now;
        rec_message_content := slice_to message 100;
        rec_context := slice_to context 100 |}] in
  if (100 <? length appended)%nat
  then <[user_id := slice_from appended (-100)]> mw
  else <[user_id := appended]> mw.

Definition _save_default_weight (mw : weights) (now : Z)
    (user_id message_id message context : pystr)
    : weights * (bool * pyfloat * json) :=
  let '(weight_score, weight_level) :=
    if (20 <? length message)%nat then (FNum 50, JStr (py "medium"))
    else (FNum 20, JStr (py "low")) in
  (_save_weight mw now user_id message_id message context weight_score weight_level,
   (true, weight_score, weight_level)).

(** The first record of the user with this message id, if any: the loop
    that opens [evaluate_message]. *)
Definition cached (mw : weights) (user_id message_id : pystr) : option weight_record :=
  List.find (fun msg_record => bool_decide (rec_message_id msg_record = message_id))
            (default [] (mw !! user_id)).

Definition evaluate_message (mw : weights) (now : Z)
    (user_id message_id message context : pystr)
    : weights * (bool * pyfloat * json) :=
  match cached mw user_id message_id with
  | Some msg_record =>
      (mw, (true, rec_weight_score msg_record, rec_weight_level msg_record))
  | None =>
      let body : raised (weights * (bool * pyfloat * json)) :=
        prompt ← _build_weight_prompt message context;
        let '(success, content) := generate_weight_evaluation prompt in
        if negb success then
          Ret (_save_default_weight mw now user_id message_id message context)
        else
          result ← _parse_weight_response content;
          match result with
          | None | Some [] =>
              Ret (_save_default_weight mw now user_id message_id message context)
          | Some d =>
              weight_score ← py_float (default (JFloat (FNum 0)) (dict_get (py "weight_score") d));
              let weight_level := default (JStr (py "low")) (dict_get (py "weight_level") d) in
              Ret (_save_weight mw now user_id message_id message context
                     weight_score weight_level,
                   (true, weight_score, weight_level))
          end in
      match body with
      | Ret r => r
      | Raise e => (mw, (false, FNum 0, JStr (py "评估权重失败: " ++ e)))
      end
  end.

(** The filtering loop of [get_filtered_messages]. *)
Fixpoint filter_messages (user_messages : list weight_record) : list weight_record :=
  match user_messages with
  | [] => []
  | msg_record :: rest =>
      let filtered := filter_messages rest in
      if bool_decide (filter_mode self = py "selective") then
        if float_ge (rec_weight_score msg_record) (high_threshold self)
        then msg_record :: filtered else filtered
      else if bool_decide (filter_mode self = py "balanced") then
        if float_ge (rec_weight_score msg_record) (medium_threshold self)
        then msg_record :: filtered else filtered
      else msg_record :: filtered
  end.

(** [list.sort(key=lambda x: x[3], reverse=True)]: descending timestamps,
    records of equal timestamp keeping their order. *)
Fixpoint insert_desc (x : weight_record) (l : list weight_record) : list weight_record :=
  match l with
  | [] => [x]
  | y :: r =>
      if rec_timestamp y <=? rec_timestamp x then x :: y :: r
      else y :: insert_desc x r
  end.

Fixpoint sort_desc (l : list weight_record) : list weight_record :=
  match l with
  | [] => []
  | x :: r => insert_desc x (sort_desc r)
  end.

(** One line of the context block. *)
Definition context_line (msg_record : weight_record) : pystr :=
  let context_str :=
    py "[" ++ strftime_md_hm (rec_timestamp msg_record) ++ py "] " ++
    rec_message_content msg_record in
  if float_gt (rec_weight_score msg_record) (FNum 0) then
    context_str ++ py " (权重: " ++ format_1f (rec_weight_score msg_record) ++
    py ", 等级: " ++ str_of_value (rec_weight_level msg_record) ++ py ")"
  else context_str.

(** ["\n".join(lines)] *)
Fixpoint join_lines (lines : list pystr) : pystr :=
  match lines with
  | [] => []
  | [x] => x
  | x :: r => x ++ [10%N] ++ join_lines r
  end.

Definition get_filtered_messages (mw : weights) (user_id : pystr) (limit : Z)
    : pystr * list pystr :=
  if bool_decide (filter_mode self = py "disabled") then ([], [])
  else
    let user_messages := default [] (mw !! user_id) in
    let filtered_messages := filter_messages user_messages in
    let filtered_messages := slice_to (sort_desc filtered_messages) limit in
    match filtered_messages with
    | [] => ([], [])
    | _ :: _ =>
        let contexts := map context_line filtered_messages in
        let message_ids := map rec_message_id filtered_messages in
        ([10; 10]%N ++ py "最近对话记录 (共 " ++ py (pretty (length contexts)) ++
         py " 条):" ++ [10%N] ++ join_lines contexts,
         message_ids)
    end.

End Service.

(** A driver for the properties of the history: the messages of [inputs]
    saved one after the other for one user. *)
Record scored_message := {
  sm_message_id : pystr;
  sm_message : pystr;
  sm_context : pystr;
  sm_score : pyfloat;
  sm_level : json;
  sm_time : Z
}.

Definition save_scored (user_id : pystr) (mw : weights) (m : scored_message) : weights :=
  _save_weight mw (sm_time m) user_id (sm_message_id m) (sm_message m)
    (sm_context m) (sm_score m) (sm_level m).

Definition save_all (user_id : pystr) (mw : weights) (inputs : list scored_message)
    : weights :=
  foldl (save_scored user_id) mw inputs.

(** The record [_save_weight] stores for a scored message. *)
Definition record_of (m : scored_message) : weight_record :=
  {| rec_message_id := sm_message_id m;
     rec_weight_score := sm_score m;
     rec_weight_level := sm_level m;
     rec_timestamp := sm_time m;
     rec_message_content := slice_to (sm_message m) 100;
     rec_context := slice_to (sm_context m) 100 |}.

End WeightService.

(** ** services/text_impression_service.py *)

Module TextImpressionService.

(** [impression_template] of [prompts], the empty text when it is not set. *)
Record config := {
  impression_template : pystr
}.

(** The table [user_impressions]; [user_id] is unique. *)
Abbreviation impressions := (gmap pystr UserImpression).

(** The eight dimensions, in the order of [patterns]. *)
Definition dimensions : list pystr :=
  [py "personality_traits"; py "interests_hobbies"; py "communication_style";
   py "emotional_tendencies"; py "behavioral_patterns"; py "values_attitudes";
   py "relationship_preferences"; py "growth_development"].

(** The value of a dimension, by the name of its field. *)
Definition dimension_of (impression : UserImpression) (key : pystr) : pystr :=
  if bool_decide (key = py "personality_traits") then personality_traits impression
  else if bool_decide (key = py "interests_hobbies") then interests_hobbies impression
  else if bool_decide (key = py "communication_style") then communication_style impression
  else if bool_decide (key = py "emotional_tendencies") then emotional_tendencies impression
  else if bool_decide (key = py "behavioral_patterns") then behavioral_patterns impression
  else if bool_decide (key = py "values_attitudes") then values_attitudes impression
  else if bool_decide (key = py "relationship_preferences") then relationship_preferences impression
  else if bool_decide (key = py "growth_development") then growth_development impression
  else [].

(** The sentinel of the prompt for a dimension without information. *)
Definition sentinel : pystr := py "待观察".

(** [re.search(key + r':\s*([^;]+)', content, re.IGNORECASE)], then
    [.group(1).strip()] *)
Definition extract (key content : pystr) : option pystr :=
  strip <$> search_group (key ++ py ":") (fun c => negb (c =? 59)%N) content.

(** The loop over [patterns.items()]: the dimensions the primary strategy
    stores. *)
Fixpoint extract_dimensions (keys : list pystr) (content : pystr)
    (result : gmap pystr pystr) : gmap pystr pystr :=
  match keys with
  | [] => result
  | key :: keys' =>
      let result :=
        match extract key content with
        | Some value =>
            match value with
            | [] => result
            | _ :: _ =>
                if bool_decide (value = sentinel) then result
                else <[key := value]> result
            end
        | None => result
        end in
      extract_dimensions keys' content result
  end.

Definition _parse_impression_response (content : pystr) : gmap pystr pystr :=
  let content := strip content in
  let result := extract_dimensions dimensions content ∅ in
  if bool_decide (result = ∅) then
    match extract (py "IMPRESSION") content with
    | Some impression_text => <[py "interests_hobbies" := impression_text]> result
    | None => ∅
    end
  else result.

Definition _save_impression (db : impressions) (now : Z) (user_id : pystr)
    (impression_data : gmap pystr pystr) : impressions :=
  let '(impression, created) :=
    match db !! user_id with
    | Some row => (row, false)
    | None =>
        ({| ui_user_id := user_id;
            personality_traits := []; interests_hobbies := [];
            communication_style := []; emotional_tendencies := [];
            behavioral_patterns := []; values_attitudes := [];
            relationship_preferences := []; growth_development := [];
            affection_score := FNum 50; affection_level := py "一般";
            message_count := 0;
            last_interaction := now; created_at := now; updated_at := now |},
         true)
    end in
  <[user_id :=
    {| ui_user_id := ui_user_id impression;
       personality_traits := default [] (impression_data !! py "personality_traits");
       interests_hobbies := default [] (impression_data !! py "interests_hobbies");
       communication_style := default [] (impression_data !! py "communication_style");
       emotional_tendencies := default [] (impression_data !! py "emotional_tendencies");
       behavioral_patterns := default [] (impression_data !! py "behavioral_patterns");
       values_attitudes := default [] (impression_data !! py "values_attitudes");
       relationship_preferences :=
         default [] (impression_data !! py "relationship_preferences");
       growth_development := default [] (impression_data !! py "growth_development");
       affection_score := affection_score impression;
       affection_level := affection_level impression;
       message_count := if created then 1 else message_count impression + 1;
       last_interaction := now;
       created_at := created_at impression;
       updated_at := now |}]> db.

Section Service.
Context {rt : PyRuntime}.
Variable self : config.
(** [self.llm_client.generate_impression_analysis] *)
Variable generate_impression_analysis : pystr -> bool * pystr.

Definition default_prompt_head : pystr := py
  "分析用户消息按8个维度生成印象，每项10字内，信息不足用待观察。只返回键值对格式：personality_traits:性格特征;interests_hobbies:兴趣爱好;communication_style:交流风格;emotional_tendencies:情感倾向;behavioral_patterns:行为模式;values_attitudes:价值观态度;relationship_preferences:关系偏好;growth_development:成长发展。历史: ".

Definition _build_prompt (history_context message : pystr) : raised pystr :=
  let template := strip (impression_template self) in
  match template with
  | _ :: _ =>
      str_format template
        [(py "history_context", slice_to history_context 500);
         (py "message", slice_to message 200);
         (py "context", [])]
  | [] =>
      let limited_history :=
        if (300 <? length history_context)%nat then slice_to history_context 300
        else history_context in
      let limited_message :=
        if (200 <? length message)%nat then slice_to message 200 else message in
      Ret (default_prompt_head ++ limited_history ++ py ";消息: " ++ limited_message)
  end.

Definition build_impression (db : impressions) (now : Z)
    (user_id message history_context : pystr) : impressions * (bool * pystr) :=
  match _build_prompt history_context message with
  | Raise e => (db, (false, py "构建印象失败: " ++ e))
  | Ret prompt =>
      let '(success, content) := generate_impression_analysis prompt in
      if negb success then (db, (false, py "LLM调用失败: " ++ content))
      else
        let impression_data := _parse_impression_response content in
        if bool_decide (impression_data = ∅) then
          (db, (false, py "解析失败: " ++ content))
        else
          (_save_impression db now user_id impression_data,
           (true, default (py "印象构建成功") (impression_data !! py "impression")))
  end.

End Service.
End TextImpressionService.

(** ** services/message_service.py *)

Module MessageService.

(** The table [impression_message_records], in insertion order. *)
Abbreviation records := (list ImpressionMessageRecord).

(** The table [user_message_state]; [user_id] is unique. *)
Abbreviation states := (gmap pystr UserMessageState).

(** [ImpressionMessageRecord.select().where(...).first()] *)
Definition first_record (tbl : records) (user_id message_id : pystr)
    : option ImpressionMessageRecord :=
  List.find (fun r => bool_decide (imr_user_id r = user_id)
                      && bool_decide (imr_message_id r = message_id)) tbl.

Definition update_message_state (tbl : states) (now : Z) (user_id message_id : pystr)
    (impression_updated affection_updated : bool) : states :=
  let state :=
    match tbl !! user_id with
    | Some row => row
    | None =>
        {| ums_user_id := user_id; last_message_id := None;
           last_message_time := None; impression_update_count := 0;
           affection_update_count := 0; total_messages := 0;
           processed_messages := 0 |}
    end in
  <[user_id :=
    {| ums_user_id := ums_user_id state;
       last_message_id := Some message_id;
       last_message_time := Some now;
       impression_update_count :=
         if impression_updated then impression_update_count state + 1
         else impression_update_count state;
       affection_update_count :=
         if affection_updated then affection_update_count state + 1
         else affection_update_count state;
       total_messages := total_messages state + 1;
       processed_messages := processed_messages state + 1 |}]> tbl.

Definition record_processed_message (tbl : records) (now : Z)
    (user_id message_id : pystr) (impression_id : option pystr) : records * bool :=
  match first_record tbl user_id message_id with
  | Some _ => (tbl, false)
  | None =>
      (tbl ++ [{| imr_user_id := user_id; imr_message_id := message_id;
                  impression_id := impression_id; processed_at := now |}],
       true)
  end.

Definition is_message_processed (tbl : records) (user_id message_id : pystr) : bool :=
  match first_record tbl user_id message_id with
  | Some _ => true
  | None => false
  end.

(** The calls that mutate a [UserMessageState]; a run of the service is a
    list of them. *)
Record state_update := {
  su_now : Z;
  su_user_id : pystr;
  su_message_id : pystr;
  su_impression_updated : bool;
  su_affection_updated : bool
}.

Definition apply_update (tbl : states) (u : state_update) : states :=
  update_message_state tbl (su_now u) (su_user_id u) (su_message_id u)
    (su_impression_updated u) (su_affection_updated u).

Definition run_updates (updates : list state_update) : states :=
  foldl apply_update ∅ updates.

End MessageService.

(** ** plugin.py: the admission block of [ImpressionUpdateHandler.handle] *)

Module Plugin.

(** The value of [should_update_impression] once the block at
    [if weight_success:] has run. *)
Definition should_update_impression (weight_service : WeightService.config)
    (weight_success : bool) (weight_score : pyfloat) : bool :=
  if weight_success then
    let filter_mode := WeightService.filter_mode weight_service in
    let high_threshold := WeightService.high_threshold weight_service in
    let medium_threshold := WeightService.medium_threshold weight_service in
    if bool_decide (filter_mode = py "disabled") then true
    else if bool_decide (filter_mode = py "selective") then
      float_ge weight_score high_threshold
    else if bool_decide (filter_mode = py "balanced") then
      float_ge weight_score medium_threshold
    else false
  else false.

End Plugin.

(** ** A small runtime for running the services on examples

    ASCII digits and letters, decimal literals read as exact rationals, no
    JSON document accepted, templates returned as they are. *)

(** The value of a literal of ASCII digits with at most one point:
    numerator and power of ten of the denominator. *)
Fixpoint decimal_value (l : pystr) (acc : Z) (scale : option positive)
    : option (Z * positive) :=
  match l with
  | [] => Some (acc, default 1%positive scale)
  | c :: r =>
      if ((48 <=? c) && (c <=? 57))%N then
        decimal_value r (acc * 10 + Z.of_N (c - 48)) ((fun p => p * 10)%positive <$> scale)
      else if (c =? 46)%N then
        match scale with
        | None => decimal_value r acc (Some 1%positive)
        | Some _ => None
        end
      else None
  end.

Definition example_runtime : PyRuntime := {|
  py_isdecimal c := ((48 <=? c) && (c <=? 57))%N;
  py_isalnum c :=
    ((48 <=? c) && (c <=? 57) || (65 <=? c) && (c <=? 90)
     || (97 <=? c) && (c <=? 122))%N;
  str_lower := map ascii_lower;
  float_of_str s :=
    match decimal_value s 0 None with
    | Some (n, d) =>
        if existsb (fun c => (48 <=? c) && (c <=? 57))%N s then Ret (FNum (n # d))
        else Raise (py "could not convert string to float")
    | None => Raise (py "could not convert string to float")
    end;
  float_of_int z := Ret (FNum (inject_Z z));
  float_type_error _ := py "float() argument must be a string or a real number";
  json_loads _ := DecodeError;
  str_format template _ := Ret template;
  strftime_md_hm _ := py "01-01 00:00";
  format_1f _ := py "0.0";
  str_of_value v := match v with JStr s => s | _ => py "?" end
|}.

(** A configuration with the default thresholds and prompt. *)
Definition example_config (mode : pystr) : WeightService.config :=
  {| WeightService.high_threshold := FNum 70;
     WeightService.medium_threshold := FNum 40;
     WeightService.filter_mode := mode;
     WeightService.weight_evaluation_prompt := [] |}.

(** A classifier that answers every prompt with [content]. *)
Definition answering (success : bool) (content : pystr) : pystr -> bool * pystr :=
  fun _ => (success, content).

(** [str(v)]: a text is its own [str], any other value goes through the
    runtime. *)
Definition py_str {rt : PyRuntime} (v : json) : pystr :=
  match v with
  | JStr s => s
  | _ => str_of_value v
  end.

(** ** models/user_impression.py: the methods of [UserImpression] *)

Module UserImpressionModel.

(** The row with every dimension [key] set to [f key]. *)
Definition with_dimensions (self : UserImpression) (f : pystr -> pystr) : UserImpression :=
  {| ui_user_id := ui_user_id self;
     personality_traits := f (py "personality_traits");
     interests_hobbies := f (py "interests_hobbies");
     communication_style := f (py "communication_style");
     emotional_tendencies := f (py "emotional_tendencies");
     behavioral_patterns := f (py "behavioral_patterns");
     values_attitudes := f (py "values_attitudes");
     relationship_preferences := f (py "relationship_preferences");
     growth_development := f (py "growth_development");
     affection_score := affection_score self;
     affection_level := affection_level self;
     message_count := message_count self;
     last_interaction := last_interaction self;
     created_at := created_at self;
     updated_at := updated_at self |}.

(** [setattr(self, field, content)] for the field of a dimension. *)
Definition set_field (self : UserImpression) (field content : pystr) : UserImpression :=
  with_dimensions self
    (fun key => if bool_decide (key = field) then content
                else TextImpressionService.dimension_of self key).

Definition update_timestamps (self : UserImpression) (now : Z) : UserImpression :=
  {| ui_user_id := ui_user_id self;
     personality_traits := personality_traits self;
     interests_hobbies := interests_hobbies self;
     communication_style := communication_style self;
     emotional_tendencies := emotional_tendencies self;
     behavioral_patterns := behavioral_patterns self;
     values_attitudes := values_attitudes self;
     relationship_preferences := relationship_preferences self;
     growth_development := growth_development self;
     affection_score := affection_score self;
     affection_level := affection_level self;
     message_count := message_count self;
     last_interaction := last_interaction self;
     created_at := created_at self;
     updated_at := now |}.

(** [sep.join(parts)] *)
Fixpoint str_join (sep : pystr) (parts : list pystr) : pystr :=
  match parts with
  | [] => []
  | [x] => x
  | x :: r => x ++ sep ++ str_join sep r
  end.

(** One [if self.field.strip(): dimensions.append(label + self.field)]. *)
Definition summary_part (label value : pystr) : list pystr :=
  match strip value with
  | [] => []
  | _ :: _ => [label ++ value]
  end.

Definition get_impression_summary (self : UserImpression) : pystr :=
  let dimensions :=
    summary_part (py "性格: ") (personality_traits self) ++
    summary_part (py "兴趣: ") (interests_hobbies self) ++
    summary_part (py "交流: ") (communication_style self) ++
    summary_part (py "情感: ") (emotional_tendencies self) ++
    summary_part (py "行为: ") (behavioral_patterns self) ++
    summary_part (py "价值观: ") (values_attitudes self) ++
    summary_part (py "关系: ") (relationship_preferences self) ++
    summary_part (py "成长: ") (growth_development self) in
  match dimensions with
  | [] => py "暂无印象数据"
  | _ :: _ => str_join (py " | ") dimensions
  end.

(** [dimension_map] of [set_dimension] and [get_dimension]. *)
Definition dimension_map : list (pystr * pystr) :=
  [(py "personality", py "personality_traits");
   (py "interests", py "interests_hobbies");
   (py "communication", py "communication_style");
   (py "emotional", py "emotional_tendencies");
   (py "behavior", py "behavioral_patterns");
   (py "values", py "values_attitudes");
   (py "relationship", py "relationship_preferences");
   (py "growth", py "growth_development")].

(** [d.get(k)] on a dict of texts. *)
Fixpoint lookup_name (k : pystr) (d : list (pystr * pystr)) : option pystr :=
  match d with
  | [] => None
  | (k', v) :: r => if bool_decide (k' = k) then Some v else lookup_name k r
  end.

Definition set_dimension (self : UserImpression) (now : Z) (dimension content : pystr)
    : raised UserImpression :=
  match lookup_name dimension dimension_map with
  | Some field => Ret (update_timestamps (set_field self field content) now)
  | None => Raise (py "未知维度: " ++ dimension)
  end.

Definition get_dimension (self : UserImpression) (dimension : pystr) : pystr :=
  TextImpressionService.dimension_of self
    (default [] (lookup_name dimension dimension_map)).

End UserImpressionModel.

(** ** services/text_impression_service.py: the accessors *)

Module TextImpressionQueries.

Definition get_impression (db : TextImpressionService.impressions) (user_id : pystr)
    : option UserImpression :=
  db !! user_id.

(** The changed row is never saved, so that the table is not part of the
    result. *)
Definition update_dimension (db : TextImpressionService.impressions) (now : Z)
    (user_id dimension content : pystr) : bool * pystr :=
  match get_impression db user_id with
  | None => (false, py "用户不存在")
  | Some impression =>
      match UserImpressionModel.set_dimension impression now dimension content with
      | Ret _ => (true, dimension ++ py "已更新: " ++ content)
      | Raise e => (false, py "更新维度失败: " ++ e)
      end
  end.

Definition get_dimension (db : TextImpressionService.impressions)
    (user_id dimension : pystr) : pystr :=
  match get_impression db user_id with
  | None => py "用户不存在"
  | Some impression => UserImpressionModel.get_dimension impression dimension
  end.

Definition get_impression_summary (db : TextImpressionService.impressions)
    (user_id : pystr) : pystr :=
  match get_impression db user_id with
  | None => py "暂无用户印象数据"
  | Some impression => UserImpressionModel.get_impression_summary impression
  end.

End TextImpressionQueries.

(** ** services/message_service.py: [get_message_state] *)

Module MessageStateQueries.

(** [UserMessageState.get_or_create(user_id=user_id)[0]]: a missing row is
    created with its defaults. *)
Definition get_message_state (tbl : MessageService.states) (user_id : pystr)
    : MessageService.states * option UserMessageState :=
  match tbl !! user_id with
  | Some row => (tbl, Some row)
  | None =>
      let row :=
        {| ums_user_id := user_id; last_message_id := None;
           last_message_time := None; impression_update_count := 0;
           affection_update_count := 0; total_messages := 0;
           processed_messages := 0 |} in
      (<[user_id := row]> tbl, Some row)
  end.

End MessageStateQueries.

(** ** utils/helpers.py *)

Module Helpers.

(** [bool(v)] *)
Definition truthy (v : json) : bool :=
  match v with
  | JNull => false
  | JBool b => b
  | JInt z => negb (z =? 0)
  | JFloat (FNum q) => negb (Qeq_bool q 0)
  | JFloat _ => true
  | JStr s => match s with [] => false | _ :: _ => true end
  | JArr l => match l with [] => false | _ :: _ => true end
  | JObj d => match d with [] => false | _ :: _ => true end
  end.

Fixpoint validate_config (config : list (pystr * json)) (required_keys : list pystr)
    : bool * pystr :=
  match required_keys with
  | [] => (true, [])
  | key :: rest =>
      match dict_get key config with
      | None => (false, py "缺少配置项: " ++ key)
      | Some v =>
          if negb (truthy v) then (false, py "配置项为空: " ++ key)
          else validate_config config rest
      end
  end.

Section AffectionLevel.
Context {rt : PyRuntime}.
(** [AFFECTION_LEVELS.items()] of [utils/constants.py]: the bands
    [((min_score, max_score), level)] in the order of the dict. *)
Variable AFFECTION_LEVELS : list ((pyfloat * pyfloat) * pystr).

(** The loop over the bands. *)
Fixpoint level_of (bands : list ((pyfloat * pyfloat) * pystr)) (score : pyfloat) : pystr :=
  match bands with
  | [] => py "一般"
  | ((min_score, max_score), level) :: rest =>
      if float_ge score min_score && float_ge max_score score then level
      else level_of rest score
  end.

Definition get_affection_level (score : json) : raised pystr :=
  match score with
  | JInt z => score ← float_of_int z; Ret (level_of AFFECTION_LEVELS score)
  | JBool b => Ret (level_of AFFECTION_LEVELS (FNum (if b then 1 else 0)))
  | JFloat f => Ret (level_of AFFECTION_LEVELS f)
  | JNull | JStr _ | JArr _ | JObj _ => Ret (py "一般")
  end.

End AffectionLevel.
End Helpers.

(** ** clients/llm_client.py: [LLMClient] *)

Module LLMClient.

(** [provider_type], [api_key] and [model_id] of the configuration, [None]
    when missing. *)
Record config := {
  provider_type : option json;
  api_key : option json;
  model_id : option json
}.

Section Client.
Context {rt : PyRuntime}.
Variable self : config.
(** [self.provider.generate(prompt, temperature=..., max_tokens=...)], the
    call over the network of whichever provider was created. *)
Variable provider_generate : pystr -> Q -> Z -> bool * pystr.

(** [_create_provider], run by [__init__]: the provider is one of the two
    known ones or the constructor raises [ValueError]. *)
Definition _create_provider : raised unit :=
  let provider_type := default (JStr (py "openai")) (provider_type self) in
  match provider_type with
  | JStr t =>
      if bool_decide (t = py "openai") then Ret tt
      else if bool_decide (t = py "custom") then Ret tt
      else Raise (py "不支持的提供商类型: " ++ py_str provider_type)
  | _ => Raise (py "不支持的提供商类型: " ++ py_str provider_type)
  end.

Definition generate (prompt : pystr) (temperature : Q) (max_tokens : Z) : bool * pystr :=
  if negb (default false (Helpers.truthy <$> api_key self))
     || negb (default false (Helpers.truthy <$> model_id self))
  then (false, py "LLM未配置: 缺少api_key或model_id")
  else provider_generate prompt temperature max_tokens.

Definition generate_impression_analysis (prompt : pystr) : bool * pystr :=
  generate prompt (3 # 10) 2000.

Definition generate_affection_analysis (prompt : pystr) : bool * pystr :=
  generate prompt (3 # 10) 1500.

Definition generate_weight_evaluation (prompt : pystr) : bool * pystr :=
  generate prompt (2 # 10) 1000.

End Client.
End LLMClient.

(** ** plugin.py: [ImpressionUpdateHandler] *)

Module Handler.

(** An object of the host, by the attributes the handler probes with
    [hasattr]; an attribute that is absent is [None]. The values of the
    attributes are plain data. *)
Record message := {
  message_base_info : option (list (pystr * json));
  attr_user_id : option json;
  plain_text : option json;
  (** for every segment, its [data] when it has one *)
  message_segments : option (list (option json))
}.

(** The event: its own attributes, whether it has a [__dict__], and its
    attributes [message], [msg] and [data]. *)
Record event := {
  own : message;
  has_dict : bool;
  attr_message : option message;
  attr_msg : option message;
  attr_data : option message
}.

(** What the handler and its services hold between two events: the
    histories of the weight service and the three tables. *)
Record world := {
  weights : WeightService.weights;
  impressions : TextImpressionService.impressions;
  records : MessageService.records;
  states : MessageService.states
}.

Section Handle.
Context {rt : PyRuntime}.
Variable weight_config : WeightService.config.
Variable impression_config : TextImpressionService.config.
Variable llm_config : LLMClient.config.
Variable provider_generate : pystr -> Q -> Z -> bool * pystr.
(** [self.affection_service.update_affection(user_id, message)]:
    [services/affection_service.py] is not among the sources; the call is
    any function of the table of impressions that returns or raises. *)
Variable update_affection :
  TextImpressionService.impressions -> Z -> pystr -> pystr ->
  TextImpressionService.impressions * raised (bool * pystr).

Definition _extract_message_content (m : message) : pystr :=
  let message_content :=
    match plain_text m with
    | Some t =>
        if Helpers.truthy t then Some (py_str t) else None
    | None => None
    end in
  let message_content :=
    match message_content with
    | Some c => c
    | None =>
        match message_segments m with
        | Some (seg :: segs) =>
            UserImpressionModel.str_join (py " ")
              (omap (fun data => py_str <$> data) (seg :: segs))
        | Some [] | None => []
        end
    end in
  strip message_content.

(** The loop over [message], [msg] and [data] in the last branch of the
    search for the user: the first of them that is there and has a
    [user_id]. *)
Fixpoint first_with_user_id (candidates : list (option message))
    : option (pystr * message) :=
  match candidates with
  | [] => None
  | Some potential_msg :: rest =>
      match attr_user_id potential_msg with
      | Some uid => Some (py_str uid, potential_msg)
      | None => first_with_user_id rest
      end
  | None :: rest => first_with_user_id rest
  end.

(** The search for the user and the message: either the answer the handler
    returns at once, or the user id and the object that holds the text. *)
Definition locate_message (event_data : event) : pystr + (pystr * message) :=
  let located : pystr + (pystr * message) :=
    match message_base_info (own event_data) with
    | Some info =>
        inr (py_str (default (JStr []) (dict_get (py "user_id") info)),
             own event_data)
    | None =>
        match attr_user_id (own event_data) with
        | Some uid => inr (py_str uid, own event_data)
        | None =>
            match plain_text (own event_data) with
            | Some _ => inr (py_str (JStr []), own event_data)
            | None =>
                let found :=
                  if has_dict event_data then
                    first_with_user_id
                      [attr_message event_data; attr_msg event_data; attr_data event_data]
                  else None in
                match found with
                | Some ((_ :: _) as user_id, m) => inr (user_id, m)
                | Some ([], _) | None => inl (py "无法从事件数据中提取用户ID")
                end
            end
        end
    end in
  match located with
  | inl answer => inl answer
  | inr ([], _) => inl (py "无法获取用户ID")
  | inr (user_id, m) => inr (user_id, m)
  end.

(** The steps of [handle] for a message that has a user, a text and no
    record yet: evaluation, selection of the context, admission, merge,
    affection, state and records. [message_id] is the text of the clock in
    milliseconds, [now] stands for the readings of [datetime.now()]. *)
Definition enrich (w : world) (now : Z) (message_id user_id message_content : pystr)
    : world :=
  let '(mw, (weight_success, weight_score, weight_level)) :=
    WeightService.evaluate_message weight_config
      (LLMClient.generate_weight_evaluation llm_config provider_generate)
      (weights w) now user_id message_id message_content [] in
  let '(history_context, processed_ids) :=
    WeightService.get_filtered_messages weight_config mw user_id 10 in
  let should_update_impression :=
    Plugin.should_update_impression weight_config weight_success weight_score in
  let '(db, impression_updated) :=
    if should_update_impression then
      let '(db, (success, _)) :=
        TextImpressionService.build_impression impression_config
          (LLMClient.generate_impression_analysis llm_config provider_generate)
          (impressions w) now user_id message_content history_context in
      (db, success)
    else (impressions w, false) in
  let '(db, affection_updated) :=
    match update_affection db now user_id message_content with
    | (db', Ret (success, _)) => (db', success)
    | (db', Raise _) => (db', false)
    end in
  let st :=
    MessageService.update_message_state (states w) now user_id
      message_id impression_updated affection_updated in
  let recs :=
    foldl (fun tbl msg_id =>
             (MessageService.record_processed_message tbl now user_id msg_id None).1)
          (records w) processed_ids in
  let recs :=
    (MessageService.record_processed_message recs now user_id message_id None).1 in
  {| weights := mw; impressions := db; records := recs; states := st |}.

Definition handle (w : world) (now : Z) (message_id : pystr) (event_data : event)
    : world * pystr :=
  match LLMClient._create_provider llm_config with
  | Raise e => (w, py "异常: " ++ e)
  | Ret _ =>
      match locate_message event_data with
      | inl answer => (w, answer)
      | inr (user_id, m) =>
          match _extract_message_content m with
          | [] => (w, py "消息内容为空")
          | (_ :: _) as message_content =>
              if MessageService.is_message_processed (records w) user_id message_id
              then (w, py "消息已处理，跳过")
              else (enrich w now message_id user_id message_content,
                    py "印象和好感度更新完成")
          end
      end
  end.

End Handle.
End Handler.

(** A runtime whose [str.format] rejects every template, as the real one
    does on a template with a placeholder it has no keyword for. *)
Definition rejecting_runtime : PyRuntime := {|
  py_isdecimal := @py_isdecimal example_runtime;
  py_isalnum := @py_isalnum example_runtime;
  str_lower := @str_lower example_runtime;
  float_of_str := @float_of_str example_runtime;
  float_of_int := @float_of_int example_runtime;
  float_type_error := @float_type_error example_runtime;
  json_loads := @json_loads example_runtime;
  str_format _ _ := Raise (py "'name'");
  strftime_md_hm := @strftime_md_hm example_runtime;
  format_1f := @format_1f example_runtime;
  str_of_value := @str_of_value example_runtime
|}.

(** An affection service that adds two points to the score of a user who
    has a row and reports a failure otherwise. *)
Definition example_affection (db : TextImpressionService.impressions) (now : Z)
    (user_id message : pystr)
    : TextImpressionService.impressions * raised (bool * pystr) :=
  match db !! user_id with
  | Some row =>
      (<[user_id :=
         {| ui_user_id := ui_user_id row;
            personality_traits := personality_traits row;
            interests_hobbies := interests_hobbies row;
            communication_style := communication_style row;
            emotional_tendencies := emotional_tendencies row;
            behavioral_patterns := behavioral_patterns row;
            values_attitudes := values_attitudes row;
            relationship_preferences := relationship_preferences row;
            growth_development := growth_development row;
            affection_score :=
              match affection_score row with
              | FNum q => FNum (q + 2)
              | f => f
              end;
            affection_level := affection_level row;
            message_count := message_count row;
            last_interaction := now;
            created_at := created_at row;
            updated_at := now |}]> db,
       Ret (true, py "friendly"))
  | None => (db, Ret (false, py "用户不存在"))
  end.

(** A client configured for the first provider. *)
Definition example_llm_config : LLMClient.config :=
  {| LLMClient.provider_type := Some (JStr (py "openai"));
     LLMClient.api_key := Some (JStr (py "sk-test"));
     LLMClient.model_id := Some (JStr (py "gpt-3.5-turbo")) |}.

(** A provider that answers the weight prompt (the one asked for at most
    1000 tokens) with a high score and the impression prompt with one
    dimension. *)
Definition example_provider (prompt : pystr) (temperature : Q) (max_tokens : Z)
    : bool * pystr :=
  if max_tokens =? 1000
  then (true, py "WEIGHT_SCORE: 80;WEIGHT_LEVEL: high;REASON: 分享爱好")
  else (true, py "interests_hobbies: 科幻小说;values_attitudes: 待观察").

(** An event of user 10001 with a text. *)
Definition example_event (text : pystr) : Handler.event :=
  {| Handler.own :=
       {| Handler.message_base_info := None;
          Handler.attr_user_id := Some (JStr (py "10001"));
          Handler.plain_text := Some (JStr text);
          Handler.message_segments := None |};
     Handler.has_dict := true;
     Handler.attr_message := None;
     Handler.attr_msg := None;
     Handler.attr_data := None |}.

Definition empty_world : Handler.world :=
  {| Handler.weights := ∅; Handler.impressions := ∅;
     Handler.records := []; Handler.states := ∅ |}.

(** ** Runs of the weight service *)

(** A run of the weight service: the calls of [evaluate_message] one after
    the other on the histories the service keeps. *)
Module WeightRuns.

(** One call: what the classifier would answer to it, the reading of the
    clock and the four arguments. *)
Record call := {
  call_answer : pystr -> bool * pystr;
  call_now : Z;
  call_user_id : pystr;
  call_message_id : pystr;
  call_message : pystr;
  call_context : pystr
}.

Section Runs.
Context {rt : PyRuntime}.
Variable self : WeightService.config.

(** The histories after one call. *)
Definition step (mw : WeightService.weights) (c : call) : WeightService.weights :=
  (WeightService.evaluate_message self (call_answer c) mw (call_now c)
     (call_user_id c) (call_message_id c) (call_message c) (call_context c)).1.

Definition run (mw : WeightService.weights) (calls : list call) : WeightService.weights :=
  foldl step mw calls.

End Runs.
End WeightRuns.

(** Evaluations of [n] other messages of a user, each answered with a low
    score. *)
Definition other_messages (user_id : pystr) (n : nat) : list WeightRuns.call :=
  map (fun k =>
         {| WeightRuns.call_answer :=
              answering true (py "WEIGHT_SCORE: 10;WEIGHT_LEVEL: low");
            WeightRuns.call_now := 2;
            WeightRuns.call_user_id := user_id;
            WeightRuns.call_message_id := [N.of_nat (1000 + k)];
            WeightRuns.call_message := py "hi";
            WeightRuns.call_context := [] |})
      (seq 0 n).

Arguments py : simpl never.

(** * Properties *)

(** ** Strings and comparisons *)

Lemma float_ge_rational (a b : Q) : float_ge (FNum a) (FNum b) = true <-> (b <= a)%Q.
Proof. simpl. apply Qle_bool_iff. Qed.

Lemma selective_not_disabled : bool_decide (py "selective" = py "disabled") = false.
Proof. vm_compute; reflexivity. Qed.

Lemma balanced_not_disabled : bool_decide (py "balanced" = py "disabled") = false.
Proof. vm_compute; reflexivity. Qed.

Lemma balanced_not_selective : bool_decide (py "balanced" = py "selective") = false.
Proof. vm_compute; reflexivity. Qed.

(** ** Admission *)

(** C3, as the code has it: a message whose weight evaluation failed is
    admitted under no mode; with weight evaluation successful, a message of
    score [s] is admitted always under [disabled], exactly when
    [s >= high_threshold] under [selective] and exactly when
    [s >= medium_threshold] under [balanced] (on rational scores and
    thresholds this is the order of the rationals); the history filter of
    [get_filtered_messages] keeps a record under the same two comparisons;
    with thresholds 70 and 40, a score of 75 is admitted under selective
    and balanced, 50 under balanced only, 20 under neither. *)
Theorem admission_semantics (high medium s : pyfloat) (prompt : pystr)
    (msg_record : weight_record) :
  let cfg mode :=
    {| WeightService.high_threshold := high;
       WeightService.medium_threshold := medium;
       WeightService.filter_mode := mode;
       WeightService.weight_evaluation_prompt := prompt |} in
  (forall mode, Plugin.should_update_impression (cfg mode) false s = false)
  /\ Plugin.should_update_impression (cfg (py "disabled")) true s = true
  /\ Plugin.should_update_impression (cfg (py "selective")) true s = float_ge s high
  /\ Plugin.should_update_impression (cfg (py "balanced")) true s = float_ge s medium
  /\ (forall h q : Q, high = FNum h -> s = FNum q ->
        Plugin.should_update_impression (cfg (py "selective")) true s = true
        <-> (h <= q)%Q)
  /\ (forall m q : Q, medium = FNum m -> s = FNum q ->
        Plugin.should_update_impression (cfg (py "balanced")) true s = true
        <-> (m <= q)%Q)
  /\ WeightService.filter_messages (cfg (py "selective")) [msg_record]
      = (if float_ge (rec_weight_score msg_record) high then [msg_record] else [])
  /\ WeightService.filter_messages (cfg (py "balanced")) [msg_record]
      = (if float_ge (rec_weight_score msg_record) medium then [msg_record] else [])
  /\ Plugin.should_update_impression (example_config (py "selective")) true (FNum 75) = true
  /\ Plugin.should_update_impression (example_config (py "balanced")) true (FNum 75) = true
  /\ Plugin.should_update_impression (example_config (py "selective")) true (FNum 50) = false
  /\ Plugin.should_update_impression (example_config (py "balanced")) true (FNum 50) = true
  /\ Plugin.should_update_impression (example_config (py "selective")) true (FNum 20) = false
  /\ Plugin.should_update_impression (example_config (py "balanced")) true (FNum 20) = false.
Proof.
  intros cfg.
  assert (Hsel : Plugin.should_update_impression (cfg (py "selective")) true s
                 = float_ge s high).
  { unfold Plugin.should_update_impression, cfg; cbn [WeightService.filter_mode
      WeightService.high_threshold WeightService.medium_threshold].
    by rewrite selective_not_disabled, bool_decide_eq_true_2. }
  assert (Hbal : Plugin.should_update_impression (cfg (py "balanced")) true s
                 = float_ge s medium).
  { unfold Plugin.should_update_impression, cfg; cbn [WeightService.filter_mode
      WeightService.high_threshold WeightService.medium_threshold].
    by rewrite balanced_not_disabled, balanced_not_selective, bool_decide_eq_true_2. }
  repeat split; try done;
    try (rewrite ?Hsel, ?Hbal; intros; subst; by apply float_ge_rational).
  all: unfold cfg; cbn [WeightService.filter_messages WeightService.filter_mode
      WeightService.high_threshold WeightService.medium_threshold].
  all: by rewrite ?balanced_not_selective, bool_decide_eq_true_2.
Qed.

(** C3 does not hold as stated: under [disabled] a message is not admitted
    when its weight evaluation failed. Here the configured template names a
    placeholder the service has no keyword for, so that [str.format] raises
    and [evaluate_message] reports a failure; the admission block then
    leaves the message out, whatever the mode. *)
Lemma disabled_rejects_failed_evaluation :
  let cfg :=
    {| WeightService.high_threshold := FNum 70;
       WeightService.medium_threshold := FNum 40;
       WeightService.filter_mode := py "disabled";
       WeightService.weight_evaluation_prompt := py "{name}: {message}" |} in
  let evaluated :=
    WeightService.evaluate_message (rt := rejecting_runtime) cfg
      (answering true (py "WEIGHT_SCORE: 75;WEIGHT_LEVEL: high"))
      ∅ 1 (py "u") (py "m1") (py "我喜欢科幻小说") [] in
  WeightService.filter_mode cfg = py "disabled"
  /\ evaluated.2.1.1 = false
  /\ Plugin.should_update_impression cfg evaluated.2.1.1 evaluated.2.1.2 = false.
Proof. vm_compute. repeat split; reflexivity. Qed.

(** ** The bounded history *)

(** The last hundred entries of a list. *)
Lemma cap_is_drop {A} (l : list A) :
  (if (100 <? length l)%nat then slice_from l (-100) else l)
  = drop (length l - 100) l.
Proof.
  unfold slice_from. destruct (100 <? length l)%nat eqn:Hlen.
  - apply Nat.ltb_lt in Hlen. simpl.
    f_equal. lia.
  - apply Nat.ltb_ge in Hlen.
    replace (length l - 100)%nat with 0%nat by lia. done.
Qed.

Lemma drop_last_hundred_snoc {A} (l : list A) (x : A) :
  drop (length (drop (length l - 100) l ++ [x]) - 100) (drop (length l - 100) l ++ [x])
  = drop (length (l ++ [x]) - 100) (l ++ [x]).
Proof.
  rewrite !length_app, length_drop. simpl.
  destruct (decide (length l <= 100)%nat) as [Hle|Hgt].
  - replace (length l - 100)%nat with 0%nat by lia.
    rewrite drop_0. f_equal. lia.
  - rewrite !drop_app_le by (rewrite ?length_drop; lia).
    rewrite drop_drop. do 2 f_equal. lia.
Qed.

Lemma save_weight_insert (mw : WeightService.weights) now u mid msg ctx s lv :
  WeightService._save_weight mw now u mid msg ctx s lv
  = <[u := let h := default [] (mw !! u) ++
                    [{| rec_message_id := mid; rec_weight_score := s;
                        rec_weight_level := lv; rec_timestamp := now;
                        rec_message_content := slice_to msg 100;
                        rec_context := slice_to ctx 100 |}] in
           drop (length h - 100) h]> mw.
Proof.
  unfold WeightService._save_weight. cbv zeta.
  rewrite <- cap_is_drop. by case_match.
Qed.

Lemma save_scored_lookup (mw : WeightService.weights) u m :
  WeightService.save_scored u mw m !! u
  = Some (let h := default [] (mw !! u) ++ [WeightService.record_of m] in
          drop (length h - 100) h).
Proof.
  unfold WeightService.save_scored. rewrite save_weight_insert.
  by rewrite lookup_insert_eq.
Qed.

Lemma save_scored_other (mw : WeightService.weights) u v m :
  u <> v -> WeightService.save_scored u mw m !! v = mw !! v.
Proof.
  intros Hne. unfold WeightService.save_scored. rewrite save_weight_insert.
  by rewrite lookup_insert_ne.
Qed.

Lemma save_all_snoc (mw : WeightService.weights) u inputs m :
  WeightService.save_all u mw (inputs ++ [m])
  = WeightService.save_scored u (WeightService.save_all u mw inputs) m.
Proof. unfold WeightService.save_all. by rewrite foldl_snoc. Qed.

Lemma save_all_other (mw : WeightService.weights) u v inputs :
  u <> v -> WeightService.save_all u mw inputs !! v = mw !! v.
Proof.
  intros Hne. induction inputs as [|m inputs IH] using rev_ind; [done|].
  rewrite save_all_snoc, save_scored_other; done.
Qed.

(** After any number of saves the history of the user is the last hundred
    entries of what was there followed by what was saved. *)
Lemma save_all_history (mw : WeightService.weights) u inputs :
  (length (default [] (mw !! u)) <= 100)%nat ->
  default [] (WeightService.save_all u mw inputs !! u)
  = (let h := default [] (mw !! u) ++ map WeightService.record_of inputs in
     drop (length h - 100) h).
Proof.
  intros Hlen. induction inputs as [|m inputs IH] using rev_ind.
  - cbn. rewrite app_nil_r.
    replace (length (default [] (mw !! u)) - 100)%nat with 0%nat by lia. done.
  - rewrite save_all_snoc, save_scored_lookup. cbn [default].
    rewrite IH. cbv zeta. rewrite drop_last_hundred_snoc.
    by rewrite map_app, app_assoc.
Qed.

(** C5: the history of every user holds at most 100 entries, before and
    after any sequence of saves; and once more than 100 scored messages
    have been saved for a user, the history is exactly the records of the
    100 saved last, in the order they were saved. *)
Theorem bounded_history (mw : WeightService.weights) (u : pystr)
    (inputs : list WeightService.scored_message) :
  (forall v l, mw !! v = Some l -> (length l <= 100)%nat) ->
  (forall v l, WeightService.save_all u mw inputs !! v = Some l -> (length l <= 100)%nat)
  /\ ((100 < length inputs)%nat ->
      WeightService.save_all u mw inputs !! u
      = Some (map WeightService.record_of (drop (length inputs - 100) inputs))
      /\ length (default [] (WeightService.save_all u mw inputs !! u)) = 100%nat).
Proof.
  intros Hinv.
  assert (Hu : (length (default [] (mw !! u)) <= 100)%nat).
  { destruct (mw !! u) as [l|] eqn:Hl; cbn; [by eapply Hinv | lia]. }
  pose proof (save_all_history mw u inputs Hu) as Hhist. cbv zeta in Hhist.
  split.
  - intros v l Hv. destruct (decide (u = v)) as [<-|Hne].
    + rewrite Hv in Hhist. cbn in Hhist. subst l.
      rewrite length_drop. lia.
    + rewrite save_all_other in Hv by done. by eapply Hinv.
  - intros Hmany.
    assert (Hlast : default [] (WeightService.save_all u mw inputs !! u)
                    = map WeightService.record_of (drop (length inputs - 100) inputs)).
    { rewrite Hhist, length_app, length_map.
      replace (length (default [] (mw !! u)) + length inputs - 100)%nat
        with (length (default [] (mw !! u)) + (length inputs - 100))%nat by lia.
      rewrite drop_app_add. by rewrite <- fmap_drop. }
    split.
    + destruct (WeightService.save_all u mw inputs !! u) as [l|] eqn:Hl.
      * cbn in Hlast. by rewrite Hlast.
      * apply (f_equal length) in Hlast.
        rewrite length_map, length_drop in Hlast. cbn in Hlast. lia.
    + rewrite Hlast, length_map, length_drop. lia.
Qed.

(** The theorem on 150 messages saved into an empty store. *)
Lemma bounded_history_witness :
  let inputs :=
    map (fun i => {| WeightService.sm_message_id := py (pretty i);
                     WeightService.sm_message := py "hello";
                     WeightService.sm_context := [];
                     WeightService.sm_score := FNum 50;
                     WeightService.sm_level := JStr (py "medium");
                     WeightService.sm_time := Z.of_nat i |}) (seq 0 150) in
  (forall v l, (∅ : WeightService.weights) !! v = Some l -> (length l <= 100)%nat)
  /\ (100 < length inputs)%nat
  /\ WeightService.save_all (py "u") ∅ inputs !! py "u"
     = Some (map WeightService.record_of (drop (length inputs - 100) inputs)).
Proof.
  intros inputs.
  assert (Hempty : forall v l, (∅ : WeightService.weights) !! v = Some l ->
                               (length l <= 100)%nat).
  { intros v l Hl. by rewrite lookup_empty in Hl. }
  assert (Hmany : (100 < length inputs)%nat) by (vm_compute; lia).
  split; [exact Hempty|]. split; [exact Hmany|].
  exact (proj1 (proj2 (bounded_history ∅ (py "u") inputs Hempty) Hmany)).
Defined.

(** ** Weight evaluation *)

Section EvaluateMessage.
Context {rt : PyRuntime}.
Variable self : WeightService.config.
Variable generate_weight_evaluation : pystr -> bool * pystr.

(** A message already in the history is answered from it. *)
Lemma evaluate_message_cached mw now u mid msg ctx r :
  WeightService.cached mw u mid = Some r ->
  WeightService.evaluate_message self generate_weight_evaluation mw now u mid msg ctx
  = (mw, (true, rec_weight_score r, rec_weight_level r)).
Proof. intros Hc. unfold WeightService.evaluate_message. by rewrite Hc. Qed.

(** Without a cached record every successful evaluation goes through
    [_save_weight]. *)
Lemma evaluate_message_saves mw now u mid msg ctx mw' s lv :
  WeightService.cached mw u mid = None ->
  WeightService.evaluate_message self generate_weight_evaluation mw now u mid msg ctx = (mw', (true, s, lv)) ->
  mw' = WeightService._save_weight mw now u mid msg ctx s lv.
Proof.
  intros Hc. unfold WeightService.evaluate_message. rewrite Hc.
  destruct (WeightService._build_weight_prompt self msg ctx) as [prompt|e];
    cbn; [|congruence].
  destruct (generate_weight_evaluation prompt) as [success content].
  destruct success; cbn.
  - destruct (WeightService._parse_weight_response content) as [[[|p d]|]|e];
      cbn; unfold WeightService._save_default_weight;
      try (case_match; intros; simplify_eq; done); try congruence.
    destruct (WeightService.py_float _) as [f|e]; cbn; [|congruence].
    intros; by simplify_eq.
  - unfold WeightService._save_default_weight.
    case_match; intros; by simplify_eq.
Qed.

Lemma save_default_weight_result mw now u mid msg ctx :
  (WeightService._save_default_weight mw now u mid msg ctx).2
  = if (20 <? length msg)%nat then (true, FNum 50, JStr (py "medium"))
    else (true, FNum 20, JStr (py "low")).
Proof.
  unfold WeightService._save_default_weight.
  by destruct (20 <? length msg)%nat.
Qed.

(** The two failures that lead to the default weight. *)
Lemma evaluate_message_default mw now u mid msg ctx prompt :
  WeightService.cached mw u mid = None ->
  WeightService._build_weight_prompt self msg ctx = Ret prompt ->
  (generate_weight_evaluation prompt).1 = false
  \/ ((generate_weight_evaluation prompt).1 = true
      /\ WeightService._parse_weight_response (generate_weight_evaluation prompt).2
         = Ret None) ->
  WeightService.evaluate_message self generate_weight_evaluation mw now u mid msg ctx
  = WeightService._save_default_weight mw now u mid msg ctx.
Proof.
  intros Hc Hprompt Hfail. unfold WeightService.evaluate_message.
  rewrite Hc, Hprompt. cbn.
  destruct (generate_weight_evaluation prompt) as [success content].
  cbn in Hfail. destruct Hfail as [->|[-> Hparse]]; cbn; [done|].
  by rewrite Hparse.
Qed.

(** A parsed dict whose score [float()] rejects is neither of the two: the
    exception reaches the handler of [evaluate_message], which reports a
    failure and saves nothing. *)
Lemma evaluate_message_conversion_error mw now u mid msg ctx prompt content p d e :
  WeightService.cached mw u mid = None ->
  WeightService._build_weight_prompt self msg ctx = Ret prompt ->
  generate_weight_evaluation prompt = (true, content) ->
  WeightService._parse_weight_response content = Ret (Some (p :: d)) ->
  WeightService.py_float
    (default (JFloat (FNum 0)) (dict_get (py "weight_score") (p :: d))) = Raise e ->
  WeightService.evaluate_message self generate_weight_evaluation mw now u mid msg ctx
  = (mw, (false, FNum 0, JStr (py "评估权重失败: " ++ e))).
Proof.
  intros Hc Hprompt Hllm Hparse Hfloat. unfold WeightService.evaluate_message.
  rewrite Hc, Hprompt. cbn. rewrite Hllm. cbn. rewrite Hparse.
  cbn in Hfloat |- *. by rewrite Hfloat.
Qed.

(** C2, as the code has it: a message found in the history is answered
    from its record and the history stays as it is; a message not found
    there whose evaluation succeeds is appended to the history of its user,
    of which the last 100 entries are kept, and no other user is touched. *)
Theorem evaluate_message_history mw now u mid msg ctx :
  (forall r, WeightService.cached mw u mid = Some r ->
     WeightService.evaluate_message self generate_weight_evaluation mw now u mid msg ctx
     = (mw, (true, rec_weight_score r, rec_weight_level r)))
  /\ (WeightService.cached mw u mid = None ->
      forall mw' s lv,
        WeightService.evaluate_message self generate_weight_evaluation mw now u mid msg ctx = (mw', (true, s, lv)) ->
        mw' !! u
        = Some (let h := default [] (mw !! u) ++
                         [{| rec_message_id := mid; rec_weight_score := s;
                             rec_weight_level := lv; rec_timestamp := now;
                             rec_message_content := slice_to msg 100;
                             rec_context := slice_to ctx 100 |}] in
                drop (length h - 100) h)
        /\ forall v, v <> u -> mw' !! v = mw !! v).
Proof.
  split.
  - intros r Hc. by apply evaluate_message_cached.
  - intros Hc mw' s lv Heval.
    apply evaluate_message_saves in Heval; [|done]. subst mw'.
    rewrite save_weight_insert. split.
    + by rewrite lookup_insert_eq.
    + intros v Hv. by rewrite lookup_insert_ne.
Qed.

(** C4: when the classifier is reached and fails, or its answer does not
    parse, [evaluate_message] returns success with 50.0 and [medium] for a
    message of more than 20 characters, and with 20.0 and [low] otherwise. *)
Theorem default_weight_fallback mw now u mid msg ctx prompt :
  WeightService.cached mw u mid = None ->
  WeightService._build_weight_prompt self msg ctx = Ret prompt ->
  (generate_weight_evaluation prompt).1 = false
  \/ ((generate_weight_evaluation prompt).1 = true
      /\ WeightService._parse_weight_response (generate_weight_evaluation prompt).2
         = Ret None) ->
  (WeightService.evaluate_message self generate_weight_evaluation mw now u mid msg ctx).2
  = if (20 <? length msg)%nat then (true, FNum 50, JStr (py "medium"))
    else (true, FNum 20, JStr (py "low")).
Proof.
  intros Hc Hprompt Hfail.
  rewrite (evaluate_message_default _ _ _ _ _ _ _ Hc Hprompt Hfail).
  apply save_default_weight_result.
Qed.

(** C9: an answer whose stripped text has fewer than 10 characters is not
    parsed at all, and [evaluate_message] then does what
    [_save_default_weight] does: the length heuristic on the message. *)
Theorem short_response_guard content :
  (length (strip content) < 10)%nat ->
  WeightService._parse_weight_response content = Ret None
  /\ forall mw now u mid msg ctx prompt,
       WeightService.cached mw u mid = None ->
       WeightService._build_weight_prompt self msg ctx = Ret prompt ->
       generate_weight_evaluation prompt = (true, content) ->
       WeightService.evaluate_message self generate_weight_evaluation mw now u mid msg ctx
       = WeightService._save_default_weight mw now u mid msg ctx
       /\ (WeightService.evaluate_message self generate_weight_evaluation mw now u mid msg ctx).2
          = if (20 <? length msg)%nat then (true, FNum 50, JStr (py "medium"))
            else (true, FNum 20, JStr (py "low")).
Proof.
  intros Hshort.
  assert (Hparse : WeightService._parse_weight_response content = Ret None).
  { unfold WeightService._parse_weight_response.
    apply Nat.ltb_lt in Hshort. by rewrite Hshort. }
  split; [done|]. intros mw now u mid msg ctx prompt Hc Hprompt Hllm.
  assert (Heval : WeightService.evaluate_message self generate_weight_evaluation mw now u mid msg ctx
                  = WeightService._save_default_weight mw now u mid msg ctx).
  { apply (evaluate_message_default _ _ _ _ _ _ prompt Hc Hprompt).
    right. by rewrite Hllm. }
  split; [done|]. rewrite Heval. apply save_default_weight_result.
Qed.

(** The filter keeps everything under a mode it does not know. *)
Lemma filter_messages_unknown_mode l :
  WeightService.filter_mode self <> py "selective" ->
  WeightService.filter_mode self <> py "balanced" ->
  WeightService.filter_messages self l = l.
Proof.
  intros Hs Hb. induction l as [|r l IH]; [done|].
  cbn [WeightService.filter_messages].
  rewrite !bool_decide_eq_false_2 by done. by rewrite IH.
Qed.

(** C10: under a filter mode other than [disabled], [selective] and
    [balanced] the score of a record plays no part: the messages selected
    are the first [limit] of the whole history of the user in descending
    order of time. *)
Theorem unknown_mode_keeps_all mw u limit :
  WeightService.filter_mode self <> py "disabled" ->
  WeightService.filter_mode self <> py "selective" ->
  WeightService.filter_mode self <> py "balanced" ->
  WeightService.filter_messages self (default [] (mw !! u)) = default [] (mw !! u)
  /\ (WeightService.get_filtered_messages self mw u limit).2
     = map rec_message_id
         (slice_to (WeightService.sort_desc (default [] (mw !! u))) limit).
Proof.
  intros Hd Hs Hb.
  split; [by apply filter_messages_unknown_mode|].
  unfold WeightService.get_filtered_messages.
  rewrite bool_decide_eq_false_2 by done.
  rewrite filter_messages_unknown_mode by done.
  by destruct (slice_to _ limit).
Qed.

(** No evaluation makes a history longer than 100 entries. *)
Lemma evaluate_message_bounded mw now u mid msg ctx :
  (forall v l, mw !! v = Some l -> (length l <= 100)%nat) ->
  forall v l,
    (WeightService.evaluate_message self generate_weight_evaluation
       mw now u mid msg ctx).1 !! v = Some l ->
    (length l <= 100)%nat.
Proof.
  intros Hinv v l.
  assert (Hsave : forall s lv l',
            WeightService._save_weight mw now u mid msg ctx s lv !! v = Some l' ->
            (length l' <= 100)%nat).
  { intros s lv l'. rewrite save_weight_insert.
    destruct (decide (u = v)) as [<-|Hne].
    - rewrite lookup_insert_eq. intros [= <-]. cbv zeta.
      rewrite length_drop. lia.
    - rewrite lookup_insert_ne by done. apply Hinv. }
  unfold WeightService.evaluate_message.
  destruct (WeightService.cached mw u mid); [apply Hinv|].
  destruct (WeightService._build_weight_prompt self msg ctx) as [prompt|e];
    cbn; [|apply Hinv].
  destruct (generate_weight_evaluation prompt) as [success content].
  unfold WeightService._save_default_weight.
  destruct success; cbn.
  - destruct (WeightService._parse_weight_response content) as [[[|p d]|]|e];
      cbn; try apply Hinv; try (case_match; apply Hsave).
    destruct (WeightService.py_float _) as [f|e]; cbn; [apply Hsave|apply Hinv].
  - case_match; apply Hsave.
Qed.

End EvaluateMessage.

(** *** The theorems at work *)

(** A history of one record, for message [m1] of user [u]. *)
Lemma evaluate_message_history_witness :
  let mw : WeightService.weights :=
    <[py "u" := [{| rec_message_id := py "m1"; rec_weight_score := FNum 85;
                    rec_weight_level := JStr (py "high"); rec_timestamp := 1;
                    rec_message_content := py "I love reading";
                    rec_context := [] |}]]> ∅ in
  let llm := answering true (py "WEIGHT_SCORE: 30;WEIGHT_LEVEL: low") in
  let eval :=
    WeightService.evaluate_message (rt := example_runtime)
      (example_config (py "selective")) llm in
  WeightService.cached mw (py "u") (py "m2") = None
  /\ eval mw 2 (py "u") (py "m2") (py "ok") []
     = (WeightService._save_weight mw 2 (py "u") (py "m2") (py "ok") []
          (FNum 30) (JStr (py "low")),
        (true, FNum 30, JStr (py "low")))
  /\ length (default [] ((eval mw 2 (py "u") (py "m2") (py "ok") []).1 !! py "u")) = 2%nat.
Proof.
  intros mw llm eval.
  assert (Hc : WeightService.cached mw (py "u") (py "m2") = None) by (vm_compute; reflexivity).
  assert (Heval : eval mw 2 (py "u") (py "m2") (py "ok") []
                  = (WeightService._save_weight mw 2 (py "u") (py "m2") (py "ok") []
                       (FNum 30) (JStr (py "low")),
                     (true, FNum 30, JStr (py "low")))) by (vm_compute; reflexivity).
  split; [exact Hc|]. split; [exact Heval|].
  destruct (evaluate_message_history (rt := example_runtime)
              (example_config (py "selective")) llm mw 2 (py "u") (py "m2") (py "ok") [])
    as [_ Happend].
  destruct (Happend Hc _ _ _ Heval) as [Hu _].
  rewrite Heval. cbn [fst]. rewrite Hu. vm_compute; reflexivity.
Defined.

(** C2 does not hold as stated: message [m1] of user [u] is in the history
    with score 85; evaluating it again returns that score without calling
    the classifier and the history is the same one-record history as
    before, no entry being appended. *)
Lemma cache_hit_appends_nothing :
  let mw : WeightService.weights :=
    <[py "u" := [{| rec_message_id := py "m1"; rec_weight_score := FNum 85;
                    rec_weight_level := JStr (py "high"); rec_timestamp := 1;
                    rec_message_content := py "I love reading";
                    rec_context := [] |}]]> ∅ in
  let result :=
    WeightService.evaluate_message (rt := example_runtime)
      (example_config (py "selective"))
      (answering true (py "WEIGHT_SCORE: 30;WEIGHT_LEVEL: low"))
      mw 2 (py "u") (py "m1") (py "I love reading") [] in
  result.2 = (true, FNum 85, JStr (py "high"))
  /\ result.1 = mw
  /\ length (default [] (mw !! py "u")) = 1%nat
  /\ length (default [] (result.1 !! py "u")) = 1%nat.
Proof. vm_compute. repeat split; reflexivity. Qed.

(** The classifier is down and the message has 25 characters. *)
Lemma default_weight_fallback_witness :
  let cfg := example_config (py "selective") in
  let down := answering false (py "OpenAI API调用失败: timeout") in
  let msg := py "我最近在读一本关于宇宙起源的科普书，感觉很有意思" in
  WeightService.cached ∅ (py "u") (py "m1") = None
  /\ (WeightService.evaluate_message (rt := example_runtime) cfg down
        ∅ 1 (py "u") (py "m1") msg []).2
     = (true, FNum 50, JStr (py "medium")).
Proof.
  intros cfg down msg.
  assert (Hc : WeightService.cached ∅ (py "u") (py "m1") = None) by (vm_compute; reflexivity).
  split; [exact Hc|].
  refine (default_weight_fallback (rt := example_runtime) cfg down
            ∅ 1 (py "u") (py "m1") msg []
            (WeightService.default_prompt_head ++ msg ++ py ";上下文: " ++ [])
            Hc _ _).
  - vm_compute; reflexivity.
  - left. vm_compute; reflexivity.
Defined.

(** The classifier answers with a bare number between spaces. *)
Lemma short_response_guard_witness :
  let cfg := example_config (py "selective") in
  let llm := answering true (py "  85  ") in
  (length (strip (py "  85  ")) < 10)%nat
  /\ WeightService._parse_weight_response (rt := example_runtime) (py "  85  ") = Ret None
  /\ WeightService.evaluate_message (rt := example_runtime) cfg llm
       ∅ 1 (py "u") (py "m1") (py "ok") []
     = WeightService._save_default_weight ∅ 1 (py "u") (py "m1") (py "ok") [].
Proof.
  intros cfg llm.
  assert (Hshort : (length (strip (py "  85  ")) < 10)%nat) by (vm_compute; lia).
  destruct (short_response_guard (rt := example_runtime) cfg llm (py "  85  ") Hshort)
    as [Hparse Heval].
  split; [exact Hshort|]. split; [exact Hparse|].
  refine (proj1 (Heval ∅ 1 (py "u") (py "m1") (py "ok") []
            (WeightService.default_prompt_head ++ py "ok" ++ py ";上下文: " ++ [])
            _ _ _)); vm_compute; reflexivity.
Defined.

(** A mode named [all] and a history of a low and a high record. *)
Lemma unknown_mode_keeps_all_witness :
  let cfg := example_config (py "all") in
  let older := {| rec_message_id := py "m1"; rec_weight_score := FNum 5;
                  rec_weight_level := JStr (py "low"); rec_timestamp := 1;
                  rec_message_content := py "hi"; rec_context := [] |} in
  let newer := {| rec_message_id := py "m2"; rec_weight_score := FNum 90;
                  rec_weight_level := JStr (py "high"); rec_timestamp := 2;
                  rec_message_content := py "I love reading"; rec_context := [] |} in
  let mw : WeightService.weights := <[py "u" := [older; newer]]> ∅ in
  WeightService.filter_mode cfg <> py "disabled"
  /\ WeightService.filter_mode cfg <> py "selective"
  /\ WeightService.filter_mode cfg <> py "balanced"
  /\ (WeightService.get_filtered_messages (rt := example_runtime) cfg mw (py "u") 10).2
     = [py "m2"; py "m1"].
Proof.
  intros cfg older newer mw.
  assert (Hd : WeightService.filter_mode cfg <> py "disabled")
    by (intros Heq; vm_compute in Heq; discriminate).
  assert (Hs : WeightService.filter_mode cfg <> py "selective")
    by (intros Heq; vm_compute in Heq; discriminate).
  assert (Hb : WeightService.filter_mode cfg <> py "balanced")
    by (intros Heq; vm_compute in Heq; discriminate).
  repeat (split; [assumption|]).
  rewrite (proj2 (unknown_mode_keeps_all (rt := example_runtime) cfg mw (py "u") 10
                    Hd Hs Hb)).
  vm_compute; reflexivity.
Defined.

(** ** The impression parser *)

(** What the loop over the eight patterns stores under a key comes from the
    accumulator or is the stripped text extracted for that key, which is
    then neither empty nor the sentinel. *)
Lemma extract_dimensions_lookup keys content acc key v :
  TextImpressionService.extract_dimensions keys content acc !! key = Some v ->
  acc !! key = Some v
  \/ (key ∈ keys
      /\ TextImpressionService.extract key content = Some v
      /\ v <> [] /\ v <> TextImpressionService.sentinel).
Proof.
  revert acc. induction keys as [|k keys IH]; intros acc Hv; [by left|].
  cbn [TextImpressionService.extract_dimensions] in Hv.
  apply IH in Hv as [Hv|(Hin & Hx & Hne & Hns)].
  - destruct (TextImpressionService.extract k content) as [value|] eqn:Hk;
      [|by left].
    destruct value as [|c value]; [by left|].
    case_bool_decide as Hs; [by left|].
    destruct (decide (k = key)) as [->|Hkey].
    + rewrite lookup_insert_eq in Hv. simplify_eq.
      right. repeat split; [apply elem_of_cons; by left|done..].
    + rewrite lookup_insert_ne in Hv by done. by left.
  - right. repeat split; [apply elem_of_cons; by right|done..].
Qed.

(** The key-value strategy drops the sentinel: on the input of the
    specification the parser returns exactly the mapping of
    [personality_traits] to 开朗; and whenever the key-value strategy stores
    at least one dimension, its mapping is the result, a dimension whose
    extracted value is the sentinel is absent from it, and no dimension is
    mapped to the sentinel. *)
Theorem sentinel_dropped (content key : pystr) :
  let stored :=
    TextImpressionService.extract_dimensions TextImpressionService.dimensions
      (strip content) ∅ in
  TextImpressionService._parse_impression_response
    (py "personality_traits: 开朗;interests_hobbies: 待观察")
  = <[py "personality_traits" := py "开朗"]> ∅
  /\ (stored <> ∅ ->
      TextImpressionService._parse_impression_response content = stored
      /\ (TextImpressionService.extract key (strip content)
          = Some TextImpressionService.sentinel ->
          TextImpressionService._parse_impression_response content !! key = None)
      /\ TextImpressionService._parse_impression_response content !! key
         <> Some TextImpressionService.sentinel).
Proof.
  intros stored. split; [vm_compute; reflexivity|]. intros Hstored.
  assert (Hparse : TextImpressionService._parse_impression_response content = stored).
  { unfold TextImpressionService._parse_impression_response. fold stored.
    by rewrite bool_decide_eq_false_2. }
  rewrite Hparse. split; [done|]. split.
  - intros Hx. destruct (stored !! key) as [v|] eqn:Hv; [|done].
    apply extract_dimensions_lookup in Hv as [Hv|(_ & Hx' & _ & Hns)].
    + by rewrite lookup_empty in Hv.
    + congruence.
  - intros Hv.
    apply extract_dimensions_lookup in Hv as [Hv|(_ & _ & _ & Hns)]; [|done].
    by rewrite lookup_empty in Hv.
Qed.

(** The input of the specification, between spaces. *)
Lemma sentinel_dropped_witness :
  let content := py "  personality_traits: 开朗;interests_hobbies: 待观察 " in
  TextImpressionService.extract_dimensions TextImpressionService.dimensions
    (strip content) ∅ <> ∅
  /\ TextImpressionService.extract (py "interests_hobbies") (strip content)
     = Some TextImpressionService.sentinel
  /\ TextImpressionService._parse_impression_response content
     !! py "interests_hobbies" = None.
Proof.
  intros content.
  assert (Hstored : TextImpressionService.extract_dimensions
                      TextImpressionService.dimensions (strip content) ∅ <> ∅)
    by (intros Heq; apply (f_equal (fun m => m !! py "personality_traits")) in Heq;
        vm_compute in Heq; discriminate).
  assert (Hx : TextImpressionService.extract (py "interests_hobbies") (strip content)
               = Some TextImpressionService.sentinel) by (vm_compute; reflexivity).
  split; [exact Hstored|]. split; [exact Hx|].
  exact (proj1 (proj2 (proj2 (sentinel_dropped content (py "interests_hobbies"))
                         Hstored)) Hx).
Defined.

(** Where a sentinel in the result can come from: the parser maps a key
    to the sentinel only when the key is [interests_hobbies], the key-value
    strategy stored nothing and the text after [IMPRESSION:] is the
    sentinel. On every other path the sentinel is dropped. *)
Lemma sentinel_only_from_fallback (content key : pystr) :
  TextImpressionService._parse_impression_response content !! key
  = Some TextImpressionService.sentinel ->
  key = py "interests_hobbies"
  /\ TextImpressionService.extract_dimensions TextImpressionService.dimensions
       (strip content) ∅ = ∅
  /\ TextImpressionService.extract (py "IMPRESSION") (strip content)
     = Some TextImpressionService.sentinel.
Proof.
  unfold TextImpressionService._parse_impression_response. cbv zeta.
  case_bool_decide as Hstored.
  - rewrite Hstored.
    destruct (TextImpressionService.extract (py "IMPRESSION") (strip content))
      as [text|] eqn:Hx.
    + intros Hv. destruct (decide (py "interests_hobbies" = key)) as [<-|Hne].
      * rewrite lookup_insert_eq in Hv. injection Hv as ->. by repeat split.
      * rewrite lookup_insert_ne in Hv by done. by rewrite lookup_empty in Hv.
    + by rewrite lookup_empty.
  - intros Hv. apply extract_dimensions_lookup in Hv as [Hv|(_ & _ & _ & Hns)];
      [|done].
    by rewrite lookup_empty in Hv.
Qed.

(** C7: the claim holds on the key-value strategy and fails on the
    fallback, which stores the text after [IMPRESSION:] under
    [interests_hobbies] without the check for the sentinel that the loop
    over the eight patterns makes. On the answer below the value extracted
    for [interests_hobbies] is the sentinel; the key-value strategy drops it
    and stores nothing, and the fallback then puts the sentinel in the
    result under that very dimension. On the input of the specification,
    where the key-value strategy stores a dimension, the sentinel is
    dropped as claimed. *)
Theorem fallback_stores_sentinel :
  let content := py "interests_hobbies: 待观察;IMPRESSION: 待观察" in
  TextImpressionService.extract (py "interests_hobbies") (strip content)
  = Some TextImpressionService.sentinel
  /\ TextImpressionService.extract_dimensions TextImpressionService.dimensions
       (strip content) ∅ = ∅
  /\ TextImpressionService._parse_impression_response content
     = <[py "interests_hobbies" := py "待观察"]> ∅
  /\ TextImpressionService._parse_impression_response
       (py "personality_traits: 开朗;interests_hobbies: 待观察")
     = <[py "personality_traits" := py "开朗"]> ∅.
Proof.
  intros content.
  split; [vm_compute; reflexivity|]. split; [vm_compute; reflexivity|].
  split; vm_compute; reflexivity.
Qed.

(** ** The profile merge *)

(** The row [_save_impression] writes: every dimension is what the mapping
    holds for it, the empty text when the mapping has no entry. *)
Lemma save_impression_dimensions (db : TextImpressionService.impressions) (now : Z)
    (u : pystr) (data : gmap pystr pystr) :
  exists row,
    TextImpressionService._save_impression db now u data !! u = Some row
    /\ forall key, key ∈ TextImpressionService.dimensions ->
         TextImpressionService.dimension_of row key = default [] (data !! key).
Proof.
  unfold TextImpressionService._save_impression.
  destruct (match db !! u with Some row => (row, false) | None => _ end)
    as [impression created].
  eexists. split; [apply lookup_insert_eq|].
  intros key Hin. unfold TextImpressionService.dimensions in Hin.
  repeat (apply elem_of_cons in Hin as [->|Hin]);
    [vm_compute; reflexivity..|by apply elem_of_nil in Hin].
Qed.

Section BuildImpression.
Context {rt : PyRuntime}.
Variable self : TextImpressionService.config.
Variable generate_impression_analysis : pystr -> bool * pystr.

(** C1, as the code has it: after a successful [build_impression] the row
    of the user holds, for each of the eight dimensions, the value of the
    parsed mapping when the dimension is in it and the empty text when it
    is not. *)
Theorem merge_overwrites_every_dimension db now u msg hist db' summary :
  TextImpressionService.build_impression self generate_impression_analysis
    db now u msg hist = (db', (true, summary)) ->
  exists prompt content row,
    TextImpressionService._build_prompt self hist msg = Ret prompt
    /\ generate_impression_analysis prompt = (true, content)
    /\ db' !! u = Some row
    /\ forall key, key ∈ TextImpressionService.dimensions ->
         TextImpressionService.dimension_of row key
         = default [] (TextImpressionService._parse_impression_response content !! key).
Proof.
  unfold TextImpressionService.build_impression.
  destruct (TextImpressionService._build_prompt self hist msg) as [prompt|e];
    [|congruence].
  destruct (generate_impression_analysis prompt) as [success content] eqn:Hllm.
  destruct success; cbn [negb]; [|congruence].
  case_bool_decide as Hdata; [congruence|].
  intros Heq. apply (f_equal fst) in Heq. cbn [fst] in Heq. subst db'.
  destruct (save_impression_dimensions db now u
              (TextImpressionService._parse_impression_response content))
    as (row & Hrow & Hdims).
  by exists prompt, content, row.
Qed.

End BuildImpression.

(** A user whose profile has a personality and an interest on record. *)
Lemma merge_overwrites_every_dimension_witness :
  let row :=
    {| ui_user_id := py "u";
       personality_traits := py "开朗"; interests_hobbies := py "音乐";
       communication_style := []; emotional_tendencies := [];
       behavioral_patterns := []; values_attitudes := [];
       relationship_preferences := []; growth_development := [];
       affection_score := FNum 50; affection_level := py "一般";
       message_count := 3; last_interaction := 1; created_at := 1;
       updated_at := 1 |} in
  let db : TextImpressionService.impressions := <[py "u" := row]> ∅ in
  let llm := answering true (py "interests_hobbies: 科幻小说;values_attitudes: 待观察") in
  let result :=
    TextImpressionService.build_impression (rt := example_runtime)
      {| TextImpressionService.impression_template := [] |} llm
      db 2 (py "u") (py "I love reading sci-fi novels") [] in
  result.2 = (true, py "印象构建成功")
  /\ interests_hobbies <$> result.1 !! py "u" = Some (py "科幻小说")
  /\ personality_traits <$> result.1 !! py "u" = Some [].
Proof.
  intros row db llm result.
  assert (Hres : result = (result.1, (true, py "印象构建成功")))
    by (vm_compute; reflexivity).
  split; [by rewrite Hres|].
  destruct (merge_overwrites_every_dimension (rt := example_runtime) _ _ _ _ _ _ _ _ _ Hres)
    as (prompt & content & row' & Hprompt & Hllm & Hrow & Hdims).
  assert (Hcontent : content = py "interests_hobbies: 科幻小说;values_attitudes: 待观察").
  { unfold llm, answering in Hllm. by injection Hllm. }
  subst content. rewrite Hrow. cbn [fmap option_fmap option_map]. split; f_equal.
  - apply (Hdims (py "interests_hobbies")).
    apply list_elem_of_further, list_elem_of_here.
  - apply (Hdims (py "personality_traits")). apply list_elem_of_here.
Defined.

(** C1 does not hold as stated: the user has 开朗 on record as personality;
    a merge whose parsed mapping holds [interests_hobbies] only succeeds and
    leaves the personality empty. *)
Lemma merge_erases_absent_dimension :
  let row :=
    {| ui_user_id := py "u";
       personality_traits := py "开朗"; interests_hobbies := py "音乐";
       communication_style := []; emotional_tendencies := [];
       behavioral_patterns := []; values_attitudes := [];
       relationship_preferences := []; growth_development := [];
       affection_score := FNum 50; affection_level := py "一般";
       message_count := 3; last_interaction := 1; created_at := 1;
       updated_at := 1 |} in
  let db : TextImpressionService.impressions := <[py "u" := row]> ∅ in
  let content := py "interests_hobbies: 科幻小说;values_attitudes: 待观察" in
  let result :=
    TextImpressionService.build_impression (rt := example_runtime)
      {| TextImpressionService.impression_template := [] |} (answering true content)
      db 2 (py "u") (py "I love reading sci-fi novels") [] in
  result.2.1 = true
  /\ TextImpressionService._parse_impression_response content
     !! py "personality_traits" = None
  /\ personality_traits <$> db !! py "u" = Some (py "开朗")
  /\ personality_traits <$> result.1 !! py "u" = Some [].
Proof. vm_compute. repeat split; reflexivity. Qed.

(** ** Deduplication and message state *)

Lemma first_record_none (tbl : MessageService.records) (u m : pystr) :
  (forall r, r ∈ tbl -> ~ (imr_user_id r = u /\ imr_message_id r = m)) ->
  MessageService.first_record tbl u m = None.
Proof.
  intros Hfresh. unfold MessageService.first_record.
  induction tbl as [|r tbl IH]; [done|]. cbn [List.find].
  destruct (bool_decide (imr_user_id r = u) && bool_decide (imr_message_id r = m))
    eqn:Hr.
  - apply andb_true_iff in Hr as [Hu Hm].
    apply bool_decide_eq_true_1 in Hu, Hm.
    destruct (Hfresh r); [apply elem_of_cons; by left|done].
  - apply IH. intros r' Hr'. apply Hfresh, elem_of_cons. by right.
Qed.

Lemma first_record_snoc (tbl : MessageService.records) (u m : pystr) i now :
  MessageService.first_record tbl u m = None ->
  MessageService.first_record
    (tbl ++ [{| imr_user_id := u; imr_message_id := m;
                impression_id := i; processed_at := now |}]) u m
  = Some {| imr_user_id := u; imr_message_id := m;
            impression_id := i; processed_at := now |}.
Proof.
  unfold MessageService.first_record.
  induction tbl as [|r tbl IH]; cbn [List.find app]; intros Hnone.
  - cbn. by rewrite !bool_decide_eq_true_2.
  - destruct (bool_decide (imr_user_id r = u) && bool_decide (imr_message_id r = m));
      [done|by apply IH].
Qed.

(** C6: for a pair not recorded yet, [is_message_processed] answers false;
    the first [record_processed_message] answers true and adds the record;
    after it [is_message_processed] answers true, and a second
    [record_processed_message] answers false and leaves the table as it
    is. *)
Theorem dedup_contract (tbl : MessageService.records) (now1 now2 : Z)
    (u m : pystr) (i1 i2 : option pystr) :
  (forall r, r ∈ tbl -> ~ (imr_user_id r = u /\ imr_message_id r = m)) ->
  MessageService.is_message_processed tbl u m = false
  /\ exists tbl1,
       MessageService.record_processed_message tbl now1 u m i1 = (tbl1, true)
       /\ MessageService.is_message_processed tbl1 u m = true
       /\ MessageService.record_processed_message tbl1 now2 u m i2 = (tbl1, false).
Proof.
  intros Hfresh. apply first_record_none in Hfresh.
  unfold MessageService.is_message_processed,
    MessageService.record_processed_message.
  rewrite Hfresh. split; [done|].
  eexists. split; [done|].
  by rewrite (first_record_snoc tbl u m i1 now1 Hfresh).
Qed.

(** A table that holds another message of the same user. *)
Lemma dedup_contract_witness :
  let other := {| imr_user_id := py "u"; imr_message_id := py "m0";
                  impression_id := None; processed_at := 1 |} in
  let added := {| imr_user_id := py "u"; imr_message_id := py "m1";
                  impression_id := None; processed_at := 2 |} in
  MessageService.is_message_processed [other] (py "u") (py "m1") = false
  /\ MessageService.record_processed_message [other] 2 (py "u") (py "m1") None
     = ([other; added], true)
  /\ MessageService.is_message_processed [other; added] (py "u") (py "m1") = true
  /\ MessageService.record_processed_message [other; added] 3 (py "u") (py "m1") None
     = ([other; added], false).
Proof.
  intros other added.
  assert (Hfresh : forall r, r ∈ [other] ->
                     ~ (imr_user_id r = py "u" /\ imr_message_id r = py "m1")).
  { intros r Hr. apply list_elem_of_singleton in Hr as ->.
    intros [_ Hm]. vm_compute in Hm. discriminate. }
  destruct (dedup_contract [other] 2 3 (py "u") (py "m1") None None Hfresh)
    as (Hbefore & tbl1 & Hfirst & Hafter & Hsecond).
  assert (Htbl : tbl1 = [other; added]).
  { assert (Hrun : MessageService.record_processed_message [other] 2 (py "u") (py "m1") None
                   = ([other; added], true)) by (vm_compute; reflexivity).
    congruence. }
  subst tbl1. done.
Defined.

(** One call adds one to each of the two counters of the user. *)
Lemma update_message_state_counters (tbl : MessageService.states) (now : Z)
    (u m : pystr) (iu au : bool) :
  exists st,
    MessageService.update_message_state tbl now u m iu au !! u = Some st
    /\ total_messages st = from_option total_messages 0 (tbl !! u) + 1
    /\ processed_messages st = from_option processed_messages 0 (tbl !! u) + 1.
Proof.
  unfold MessageService.update_message_state.
  eexists. split; [apply lookup_insert_eq|].
  by destruct (tbl !! u).
Qed.

Lemma update_message_state_other (tbl : MessageService.states) (now : Z)
    (u v m : pystr) (iu au : bool) :
  u <> v -> MessageService.update_message_state tbl now u m iu au !! v = tbl !! v.
Proof. intros Hne. unfold MessageService.update_message_state. by rewrite lookup_insert_ne. Qed.

(** C8: in every table reached from the empty one through
    [update_message_state], the two message counters of every user are
    equal; a row starts with both at 0, every call adds exactly one to each
    whatever the two update flags are, and so does [increment_counters]. *)
Theorem counters_stay_equal (updates : list MessageService.state_update) :
  (forall u st, MessageService.run_updates updates !! u = Some st ->
     total_messages st = processed_messages st)
  /\ (forall (tbl : MessageService.states) now (u m : pystr) iu au,
       exists st,
         MessageService.update_message_state tbl now u m iu au !! u = Some st
         /\ total_messages st = from_option total_messages 0 (tbl !! u) + 1
         /\ processed_messages st = from_option processed_messages 0 (tbl !! u) + 1)
  /\ (forall st now iu au,
       total_messages (increment_counters st now iu au) = total_messages st + 1
       /\ processed_messages (increment_counters st now iu au)
          = processed_messages st + 1).
Proof.
  split; [|split; [apply update_message_state_counters|done]].
  unfold MessageService.run_updates.
  induction updates as [|x updates IH] using rev_ind; intros u st Hst.
  - cbn [foldl] in Hst. by rewrite lookup_empty in Hst.
  - rewrite foldl_snoc in Hst. unfold MessageService.apply_update at 1 in Hst.
    destruct (decide (MessageService.su_user_id x = u)) as [<-|Hne].
    + destruct (update_message_state_counters
                  (foldl MessageService.apply_update ∅ updates) (MessageService.su_now x)
                  (MessageService.su_user_id x) (MessageService.su_message_id x)
                  (MessageService.su_impression_updated x) (MessageService.su_affection_updated x))
        as (st' & Hst' & Ht & Hp).
      rewrite Hst in Hst'. simplify_eq. rewrite Ht, Hp.
      destruct (foldl MessageService.apply_update ∅ updates !! MessageService.su_user_id x)
        as [old|] eqn:Hold; cbn; [|done].
      by rewrite (IH _ _ Hold).
    + rewrite update_message_state_other in Hst by done. by eapply IH.
Qed.

(** Two messages of one user, one of which updated the impression. *)
Lemma counters_stay_equal_witness :
  let updates :=
    [{| MessageService.su_now := 1; MessageService.su_user_id := py "u";
        MessageService.su_message_id := py "m1";
        MessageService.su_impression_updated := true;
        MessageService.su_affection_updated := false |};
     {| MessageService.su_now := 2; MessageService.su_user_id := py "u";
        MessageService.su_message_id := py "m2";
        MessageService.su_impression_updated := false;
        MessageService.su_affection_updated := false |}] in
  exists st,
    MessageService.run_updates updates !! py "u" = Some st
    /\ total_messages st = 2
    /\ total_messages st = processed_messages st.
Proof.
  intros updates.
  destruct (MessageService.run_updates updates !! py "u") as [st|] eqn:Hst;
    [|vm_compute in Hst; discriminate].
  exists st. split; [done|]. split.
  - vm_compute in Hst. by simplify_eq.
  - exact (proj1 (counters_stay_equal updates) (py "u") st Hst).
Defined.

(** The admission theorem at the thresholds of the specification. *)
Lemma admission_semantics_witness :
  (Plugin.should_update_impression (example_config (py "selective")) true (FNum 75) = true
   <-> (70 <= 75)%Q)
  /\ (Plugin.should_update_impression (example_config (py "balanced")) true (FNum 20) = true
      <-> (40 <= 20)%Q).
Proof.
  split.
  - exact (proj1 (proj2 (proj2 (proj2 (proj2
      (admission_semantics (FNum 70) (FNum 40) (FNum 75) []
         {| rec_message_id := []; rec_weight_score := FNum 75;
            rec_weight_level := JNull; rec_timestamp := 0;
            rec_message_content := []; rec_context := [] |}))))) 70%Q 75%Q eq_refl eq_refl).
  - exact (proj1 (proj2 (proj2 (proj2 (proj2 (proj2
      (admission_semantics (FNum 70) (FNum 40) (FNum 20) []
         {| rec_message_id := []; rec_weight_score := FNum 20;
            rec_weight_level := JNull; rec_timestamp := 0;
            rec_message_content := []; rec_context := [] |})))))) 40%Q 20%Q eq_refl eq_refl).
Defined.

(** * Further properties of the services *)

(** ** Weight evaluation: the cache, failures and what is stored *)

Lemma find_snoc_none {A} (f : A -> bool) (l : list A) (x : A) :
  List.find f l = None -> f x = true -> List.find f (l ++ [x]) = Some x.
Proof.
  intros Hl Hx. induction l as [|y l IH]; cbn in *; [by rewrite Hx|].
  destruct (f y); [done|by apply IH].
Qed.

Lemma find_drop_none {A} (f : A -> bool) (l : list A) (n : nat) :
  List.find f l = None -> List.find f (drop n l) = None.
Proof.
  revert n. induction l as [|y l IH]; intros [|n] Hl; cbn in *; try done.
  destruct (f y); [done|by apply IH].
Qed.

(** The record just saved is the one the cache finds. *)
Lemma cached_after_save (mw : WeightService.weights) now u mid msg ctx s lv :
  WeightService.cached mw u mid = None ->
  WeightService.cached (WeightService._save_weight mw now u mid msg ctx s lv) u mid
  = Some {| rec_message_id := mid; rec_weight_score := s; rec_weight_level := lv;
            rec_timestamp := now; rec_message_content := slice_to msg 100;
            rec_context := slice_to ctx 100 |}.
Proof.
  unfold WeightService.cached. intros Hc.
  rewrite save_weight_insert, lookup_insert_eq. cbn [default from_option id].
  rewrite length_app. cbn [length].
  rewrite drop_app_le by lia.
  apply find_snoc_none; [by apply find_drop_none|].
  cbn. by rewrite bool_decide_eq_true_2.
Qed.

Section Reevaluation.
Context {rt : PyRuntime}.
Variable self : WeightService.config.
Variables first_answer later_answer : pystr -> bool * pystr.

(** What one evaluation does to the histories: nothing, or one save for a
    message that was not in the history of the user. *)
Lemma evaluate_message_step g mw now u mid msg ctx :
  (WeightService.evaluate_message self g mw now u mid msg ctx).1 = mw
  \/ (WeightService.cached mw u mid = None
      /\ exists s lv,
           (WeightService.evaluate_message self g mw now u mid msg ctx).1
           = WeightService._save_weight mw now u mid msg ctx s lv).
Proof.
  unfold WeightService.evaluate_message.
  destruct (WeightService.cached mw u mid) eqn:Hc; [by left|].
  destruct (WeightService._build_weight_prompt self msg ctx) as [prompt|e];
    cbn; [|by left].
  destruct (g prompt) as [success content].
  unfold WeightService._save_default_weight.
  destruct success; cbn.
  - destruct (WeightService._parse_weight_response content) as [[[|p d]|]|e];
      cbn; try (by left); try (case_match; right; split; [done|]; eauto).
    destruct (WeightService.py_float _) as [f|e]; cbn; [right; eauto|by left].
  - case_match; right; eauto.
Qed.

(** A record is the one the cache finds for its id when no record before
    it in the history has that id. *)
Lemma cached_in_history (mw : WeightService.weights) (u mid : pystr) pre r post :
  mw !! u = Some (pre ++ r :: post) ->
  Forall (fun x => rec_message_id x <> mid) pre ->
  rec_message_id r = mid ->
  WeightService.cached mw u mid = Some r.
Proof.
  unfold WeightService.cached. intros -> Hpre Hr. cbn [default from_option id].
  induction Hpre as [|x pre Hx Hpre IH]; cbn.
  - by rewrite bool_decide_eq_true_2.
  - by rewrite bool_decide_eq_false_2.
Qed.

(** One call keeps a record in the history of its user, and first of its
    id, as long as fewer than 99 records follow it. *)
Lemma step_keeps_record (mw : WeightService.weights) (c : WeightRuns.call)
    (u mid : pystr) pre r post :
  mw !! u = Some (pre ++ r :: post) ->
  Forall (fun x => rec_message_id x <> mid) pre ->
  (length post + (if bool_decide (WeightRuns.call_user_id c = u) then 1 else 0) < 100)%nat ->
  exists pre' post',
    WeightRuns.step self mw c !! u = Some (pre' ++ r :: post')
    /\ Forall (fun x => rec_message_id x <> mid) pre'
    /\ (length post'
        <= length post + (if bool_decide (WeightRuns.call_user_id c = u) then 1 else 0))%nat.
Proof.
  intros Hmw Hpre Hlen. unfold WeightRuns.step.
  destruct (evaluate_message_step (WeightRuns.call_answer c) mw (WeightRuns.call_now c)
              (WeightRuns.call_user_id c) (WeightRuns.call_message_id c)
              (WeightRuns.call_message c) (WeightRuns.call_context c))
    as [->|(_ & s & lv & ->)].
  { exists pre, post. repeat split; [done..|lia]. }
  rewrite save_weight_insert. case_bool_decide as Hu.
  - rewrite Hu, lookup_insert_eq, Hmw. cbn [default from_option id]. cbv zeta.
    rewrite <- app_assoc. cbn [app].
    rewrite drop_app_le by (rewrite !length_app; cbn; rewrite length_app; cbn; lia).
    eexists _, _. split; [done|]. split; [by apply Forall_drop|].
    rewrite length_app. cbn. lia.
  - rewrite lookup_insert_ne by done. exists pre, post. repeat split; [done..|lia].
Qed.

(** A run keeps the record while fewer than 100 of its calls are for the
    user. *)
Lemma run_keeps_record (calls : list WeightRuns.call) :
  forall (mw : WeightService.weights) (u mid : pystr) pre r post,
    mw !! u = Some (pre ++ r :: post) ->
    Forall (fun x => rec_message_id x <> mid) pre ->
    (length post + length (filter (fun c => WeightRuns.call_user_id c = u) calls) < 100)%nat ->
    exists pre' post',
      WeightRuns.run self mw calls !! u = Some (pre' ++ r :: post')
      /\ Forall (fun x => rec_message_id x <> mid) pre'.
Proof.
  induction calls as [|c calls IH]; intros mw u mid pre r post Hmw Hpre Hlen.
  { by exists pre, post. }
  cbn [WeightRuns.run foldl].
  assert (Hcount : length (filter (fun c => WeightRuns.call_user_id c = u) (c :: calls))
                   = ((if bool_decide (WeightRuns.call_user_id c = u) then 1 else 0)
                      + length (filter (fun c => WeightRuns.call_user_id c = u) calls))%nat).
  { case_bool_decide.
    - by rewrite (filter_cons_True (fun c => WeightRuns.call_user_id c = u)).
    - by rewrite (filter_cons_False (fun c => WeightRuns.call_user_id c = u)). }
  rewrite Hcount in Hlen.
  destruct (step_keeps_record mw c u mid pre r post Hmw Hpre)
    as (pre' & post' & Hmw' & Hpre' & Hlen'); [lia|].
  apply (IH _ u mid pre' r post' Hmw' Hpre'). lia.
Qed.

(** X1: a message that was evaluated with success keeps its score: a call
    repeated at once for the same user and message id returns the same
    score and level and leaves the histories as they are, whatever the
    classifier would answer then and whatever text is passed; and when the
    first call found no record of the message, so does a call after any run
    of further evaluations of which fewer than 100 are for that user. *)
Theorem reevaluation_is_idempotent mw now u mid msg ctx mw' s lv :
  WeightService.evaluate_message self first_answer mw now u mid msg ctx
  = (mw', (true, s, lv)) ->
  (forall now2 msg2 ctx2,
     WeightService.evaluate_message self later_answer mw' now2 u mid msg2 ctx2
     = (mw', (true, s, lv)))
  /\ (WeightService.cached mw u mid = None ->
      forall calls now2 msg2 ctx2,
        (length (filter (fun c => WeightRuns.call_user_id c = u) calls) < 100)%nat ->
        WeightService.evaluate_message self later_answer
          (WeightRuns.run self mw' calls) now2 u mid msg2 ctx2
        = (WeightRuns.run self mw' calls, (true, s, lv))).
Proof.
  intros Heval. split.
  - intros now2 msg2 ctx2.
    destruct (WeightService.cached mw u mid) as [r|] eqn:Hc.
    + rewrite (evaluate_message_cached _ _ _ _ _ _ _ _ _ Hc) in Heval.
      injection Heval as <- <- <-.
      by apply evaluate_message_cached.
    + apply evaluate_message_saves in Heval; [|done]. subst mw'.
      by rewrite (evaluate_message_cached _ _ _ _ _ _ _ _ _
                    (cached_after_save mw now u mid msg ctx s lv Hc)).
  - intros Hc calls now2 msg2 ctx2 Hlen.
    apply evaluate_message_saves in Heval; [|done].
    set (r := {| rec_message_id := mid; rec_weight_score := s;
                 rec_weight_level := lv; rec_timestamp := now;
                 rec_message_content := slice_to msg 100;
                 rec_context := slice_to ctx 100 |}).
    assert (Hold : Forall (fun x => rec_message_id x <> mid) (default [] (mw !! u))).
    { apply Forall_forall. intros x Hx Hid. unfold WeightService.cached in Hc.
      apply list_elem_of_In in Hx.
      pose proof (find_none _ _ Hc x Hx) as Hf. cbn in Hf.
      by rewrite bool_decide_eq_true_2 in Hf. }
    assert (Hmw' : mw' !! u
                   = Some (drop (length (default [] (mw !! u) ++ [r]) - 100)
                                (default [] (mw !! u)) ++ r :: [])).
    { rewrite Heval, save_weight_insert, lookup_insert_eq. cbv zeta. fold r.
      by rewrite drop_app_le by (rewrite length_app; cbn; lia). }
    destruct (run_keeps_record calls mw' u mid _ r [] Hmw')
      as (pre' & post' & Hrun & Hpre'); [by apply Forall_drop|cbn; lia|].
    by rewrite (evaluate_message_cached _ _ _ _ _ _ _ _ _
                  (cached_in_history _ u mid pre' r post' Hrun Hpre' eq_refl)).
Qed.

End Reevaluation.

Section EvaluationOutcomes.
Context {rt : PyRuntime}.
Variable self : WeightService.config.
Variable generate_weight_evaluation : pystr -> bool * pystr.

(** X2: an evaluation that reports a failure has saved nothing: the
    histories are unchanged, the score is 0.0 and the third component is the
    text of the exception behind the fixed prefix. *)
Theorem failed_evaluation_saves_nothing mw now u mid msg ctx mw' s lv :
  WeightService.evaluate_message self generate_weight_evaluation mw now u mid msg ctx
  = (mw', (false, s, lv)) ->
  mw' = mw /\ s = FNum 0 /\ exists e, lv = JStr (py "评估权重失败: " ++ e).
Proof.
  unfold WeightService.evaluate_message.
  destruct (WeightService.cached mw u mid); [congruence|].
  destruct (WeightService._build_weight_prompt self msg ctx) as [prompt|e]; cbn.
  - destruct (generate_weight_evaluation prompt) as [success content].
    unfold WeightService._save_default_weight.
    destruct success; cbn.
    + destruct (WeightService._parse_weight_response content) as [[[|p d]|]|e];
        cbn; try (case_match; congruence).
      * destruct (WeightService.py_float _) as [f|e]; cbn; [congruence|].
        intros [= <- <- <-]. eauto.
      * intros [= <- <- <-]. eauto.
    + case_match; congruence.
  - intros [= <- <- <-]. eauto.
Qed.

(** A dict the parser returns holds a score. *)
Lemma weight_json_has_score content d :
  WeightService.weight_json content = Ret (Some d) ->
  is_Some (dict_get (py "weight_score") d).
Proof.
  unfold WeightService.weight_json. case_match; [|congruence].
  destruct (json_loads _) as [[]| |]; try congruence.
  destruct (dict_get (py "weight_score") pairs) eqn:Hget; [|congruence].
  intros [= <-]. by rewrite Hget.
Qed.

(** X3: the weight parser never returns a dict without a score: when it
    returns a dict, the key [weight_score] is in it (so the dict is not
    empty), and the stripped answer had at least 10 characters. *)
Theorem parsed_weight_has_score content d :
  WeightService._parse_weight_response content = Ret (Some d) ->
  is_Some (dict_get (py "weight_score") d)
  /\ d <> []
  /\ (10 <= length (strip content))%nat.
Proof.
  unfold WeightService._parse_weight_response.
  destruct (length (strip content) <? 10)%nat eqn:Hlen; [congruence|].
  apply Nat.ltb_ge in Hlen. intros Hparse.
  assert (Hscore : is_Some (dict_get (py "weight_score") d)).
  { destruct (WeightService.weight_pairs (strip content)) as [|p ps] eqn:Hpairs.
    - by apply weight_json_has_score in Hparse.
    - destruct (dict_get (py "weight_score") (p :: ps)) eqn:Hget.
      + injection Hparse as <-. by rewrite Hget.
      + by apply weight_json_has_score in Hparse. }
  repeat split; [done| |done].
  intros ->. by destruct Hscore.
Qed.

(** X4: the excerpts kept in the histories stay within 100 characters: when
    every record of every user has a message excerpt and a context excerpt
    of at most 100 characters, so it is after any evaluation. *)
Theorem excerpts_stay_bounded mw now u mid msg ctx :
  (forall v l r, mw !! v = Some l -> r ∈ l ->
     (length (rec_message_content r) <= 100)%nat
     /\ (length (rec_context r) <= 100)%nat) ->
  forall v l r,
    (WeightService.evaluate_message self generate_weight_evaluation
       mw now u mid msg ctx).1 !! v = Some l ->
    r ∈ l ->
    (length (rec_message_content r) <= 100)%nat
    /\ (length (rec_context r) <= 100)%nat.
Proof.
  intros Hinv v l r.
  assert (Hsave : forall s lv l',
            WeightService._save_weight mw now u mid msg ctx s lv !! v = Some l' ->
            r ∈ l' ->
            (length (rec_message_content r) <= 100)%nat
            /\ (length (rec_context r) <= 100)%nat).
  { intros s lv l'. rewrite save_weight_insert.
    destruct (decide (u = v)) as [<-|Hne].
    - rewrite lookup_insert_eq. intros [= <-] Hr. cbv zeta in Hr.
      apply (subseteq_drop _ _ r) in Hr.
      apply elem_of_app in Hr as [Hr|Hr].
      + destruct (mw !! u) as [h|] eqn:Hh; cbn in Hr; [by eapply Hinv|].
        by apply elem_of_nil in Hr.
      + apply list_elem_of_singleton in Hr as ->. cbn.
        unfold slice_to. cbn. rewrite !length_take. lia.
    - rewrite lookup_insert_ne by done. apply Hinv. }
  unfold WeightService.evaluate_message.
  destruct (WeightService.cached mw u mid); [apply Hinv|].
  destruct (WeightService._build_weight_prompt self msg ctx) as [prompt|e];
    cbn; [|apply Hinv].
  destruct (generate_weight_evaluation prompt) as [success content].
  unfold WeightService._save_default_weight.
  destruct success; cbn.
  - destruct (WeightService._parse_weight_response content) as [[[|p d]|]|e];
      cbn; try apply Hinv; try (case_match; apply Hsave).
    destruct (WeightService.py_float _) as [f|e]; cbn; [apply Hsave|apply Hinv].
  - case_match; apply Hsave.
Qed.

End EvaluationOutcomes.

(** ** The key-value answer of the classifier *)

Lemma dict_get_set_eq k v d : dict_get k (dict_set k v d) = Some v.
Proof.
  induction d as [|[k' v'] d IH]; cbn.
  - by rewrite bool_decide_eq_true_2.
  - case_bool_decide as Hk; cbn.
    + by rewrite bool_decide_eq_true_2.
    + by rewrite bool_decide_eq_false_2.
Qed.

Lemma dict_get_set_ne k k' v d : k <> k' -> dict_get k (dict_set k' v d) = dict_get k d.
Proof.
  intros Hne. induction d as [|[k0 v0] d IH]; cbn.
  - by rewrite bool_decide_eq_false_2.
  - case_bool_decide as Hk; cbn.
    + subst k0. by rewrite !bool_decide_eq_false_2.
    + by case_bool_decide.
Qed.

Section KeyValueAnswer.
Context {rt : PyRuntime}.
Variable self : WeightService.config.
Variable generate_weight_evaluation : pystr -> bool * pystr.

(** The score the key-value strategy stores for the digits it captured. *)
Lemma weight_pairs_score content g :
  search_group (py "WEIGHT_SCORE:") (fun c => py_isdecimal c || (c =? 46)%N) content
  = Some g ->
  dict_get (py "weight_score") (WeightService.weight_pairs content)
  = Some (JFloat match float_of_str g with Ret f => f | Raise _ => FNum 0 end).
Proof.
  intros Hg. unfold WeightService.weight_pairs. rewrite Hg. cbv zeta.
  assert (Hl : py "weight_score" <> py "weight_level")
    by (intros Heq; vm_compute in Heq; discriminate).
  assert (Hr : py "weight_score" <> py "reason")
    by (intros Heq; vm_compute in Heq; discriminate).
  repeat case_match; rewrite ?(dict_get_set_ne _ _ _ _ Hr),
    ?(dict_get_set_ne _ _ _ _ Hl); apply dict_get_set_eq.
Qed.

(** X5: an answer of at least 10 characters in which the key-value pattern
    finds a score is settled by the key-value strategy alone: the JSON
    strategy is not consulted, the score is the float of the digits captured
    (0.0 when [float()] rejects them, as on [1.2.3]), and the evaluation
    succeeds with that score and saves it. *)
Theorem key_value_score_wins content g mw now u mid msg ctx prompt :
  (10 <= length (strip content))%nat ->
  search_group (py "WEIGHT_SCORE:") (fun c => py_isdecimal c || (c =? 46)%N)
    (strip content) = Some g ->
  WeightService.cached mw u mid = None ->
  WeightService._build_weight_prompt self msg ctx = Ret prompt ->
  generate_weight_evaluation prompt = (true, content) ->
  let score := match float_of_str g with Ret f => f | Raise _ => FNum 0 end in
  WeightService._parse_weight_response content
  = Ret (Some (WeightService.weight_pairs (strip content)))
  /\ exists lv,
       WeightService.evaluate_message self generate_weight_evaluation
         mw now u mid msg ctx
       = (WeightService._save_weight mw now u mid msg ctx score lv, (true, score, lv)).
Proof.
  intros Hlen Hg Hc Hprompt Hllm score.
  pose proof (weight_pairs_score _ _ Hg) as Hscore. fold score in Hscore.
  assert (Hparse : WeightService._parse_weight_response content
                   = Ret (Some (WeightService.weight_pairs (strip content)))).
  { unfold WeightService._parse_weight_response. cbv zeta.
    apply Nat.ltb_ge in Hlen. rewrite Hlen.
    destruct (WeightService.weight_pairs (strip content)) as [|p d]; [done|].
    by rewrite Hscore. }
  split; [done|].
  unfold WeightService.evaluate_message.
  rewrite Hc, Hprompt. cbn. rewrite Hllm. cbn. rewrite Hparse.
  destruct (WeightService.weight_pairs (strip content)) as [|p d] eqn:Hpairs;
    [done|].
  cbn in Hscore |- *. rewrite Hscore. cbn. eauto.
Qed.

End KeyValueAnswer.

(** ** The selection of context messages *)

Lemma insert_desc_perm x l : WeightService.insert_desc x l ≡ₚ x :: l.
Proof.
  induction l as [|y l IH]; cbn; [done|].
  case_match; [done|]. rewrite IH. apply Permutation_swap.
Qed.

Lemma sort_desc_perm l : WeightService.sort_desc l ≡ₚ l.
Proof.
  induction l as [|x l IH]; cbn; [done|].
  by rewrite insert_desc_perm, IH.
Qed.

Lemma insert_desc_sorted x l :
  StronglySorted (fun a b => rec_timestamp b <= rec_timestamp a) l ->
  StronglySorted (fun a b => rec_timestamp b <= rec_timestamp a)
    (WeightService.insert_desc x l).
Proof.
  induction 1 as [|y l Hl IH Hy]; cbn.
  - repeat constructor.
  - destruct (rec_timestamp y <=? rec_timestamp x) eqn:Hyx.
    + apply Z.leb_le in Hyx. constructor; [by constructor|].
      constructor; [done|]. eapply Forall_impl; [exact Hy|].
      cbn. intros z Hz. lia.
    + apply Z.leb_gt in Hyx. constructor; [done|].
      rewrite insert_desc_perm. constructor; [lia|done].
Qed.

Lemma sort_desc_sorted l :
  StronglySorted (fun a b => rec_timestamp b <= rec_timestamp a)
    (WeightService.sort_desc l).
Proof.
  induction l as [|x l IH]; cbn; [constructor|by apply insert_desc_sorted].
Qed.

Section Selection.
Context {rt : PyRuntime}.
Variable self : WeightService.config.

Lemma filter_messages_elem r l :
  r ∈ WeightService.filter_messages self l ->
  r ∈ l
  /\ (WeightService.filter_mode self = py "selective" ->
      float_ge (rec_weight_score r) (WeightService.high_threshold self) = true)
  /\ (WeightService.filter_mode self = py "balanced" ->
      float_ge (rec_weight_score r) (WeightService.medium_threshold self) = true).
Proof.
  induction l as [|x l IH]; cbn [WeightService.filter_messages].
  { intros Hr. by apply elem_of_nil in Hr. }
  assert (Hrest : r ∈ WeightService.filter_messages self l ->
            r ∈ x :: l
            /\ (WeightService.filter_mode self = py "selective" ->
                float_ge (rec_weight_score r) (WeightService.high_threshold self) = true)
            /\ (WeightService.filter_mode self = py "balanced" ->
                float_ge (rec_weight_score r) (WeightService.medium_threshold self)
                = true)).
  { intros Hr. destruct (IH Hr) as (? & ? & ?).
    split; [apply elem_of_cons; by right|done]. }
  assert (Hsb : py "selective" <> py "balanced")
    by (intros Heq; vm_compute in Heq; discriminate).
  case_bool_decide as Hs; [|case_bool_decide as Hb].
  - destruct (float_ge (rec_weight_score x) _) eqn:Hge; [|done].
    intros [->|Hr]%elem_of_cons; [|by apply Hrest].
    split; [apply elem_of_cons; by left|]. split; [done|].
    intros Hm. rewrite Hs in Hm. by destruct Hsb.
  - destruct (float_ge (rec_weight_score x) _) eqn:Hge; [|done].
    intros [->|Hr]%elem_of_cons; [|by apply Hrest].
    split; [apply elem_of_cons; by left|]. split; [|done].
    intros Hm. by destruct Hs.
  - intros [->|Hr]%elem_of_cons; [|by apply Hrest].
    split; [apply elem_of_cons; by left|]. by split.
Qed.

(** What the function selects, as a list of records. *)
Lemma get_filtered_messages_ids mw u limit :
  WeightService.filter_mode self <> py "disabled" ->
  (WeightService.get_filtered_messages self mw u limit).2
  = map rec_message_id
      (slice_to (WeightService.sort_desc
                   (WeightService.filter_messages self (default [] (mw !! u)))) limit).
Proof.
  intros Hd. unfold WeightService.get_filtered_messages.
  rewrite bool_decide_eq_false_2 by done.
  by destruct (slice_to _ limit).
Qed.

Lemma slice_to_subseteq {A} (l : list A) n : slice_to l n ⊆ l.
Proof. unfold slice_to. case_match; apply subseteq_take. Qed.

(** X6: every message id [get_filtered_messages] returns is the id of a
    record in the history of that user, and that record has a score of at
    least the high threshold under [selective] and of at least the medium
    threshold under [balanced]; under [disabled] no id is returned. *)
Theorem selected_messages_qualify mw u limit id :
  id ∈ (WeightService.get_filtered_messages self mw u limit).2 ->
  WeightService.filter_mode self <> py "disabled"
  /\ exists r,
       r ∈ default [] (mw !! u)
       /\ rec_message_id r = id
       /\ (WeightService.filter_mode self = py "selective" ->
           float_ge (rec_weight_score r) (WeightService.high_threshold self) = true)
       /\ (WeightService.filter_mode self = py "balanced" ->
           float_ge (rec_weight_score r) (WeightService.medium_threshold self) = true).
Proof.
  intros Hid.
  destruct (decide (WeightService.filter_mode self = py "disabled")) as [Hd|Hd].
  { unfold WeightService.get_filtered_messages in Hid.
    rewrite bool_decide_eq_true_2 in Hid by done. by apply elem_of_nil in Hid. }
  split; [done|]. rewrite get_filtered_messages_ids in Hid by done.
  apply list_elem_of_fmap in Hid as (r & -> & Hr).
  apply slice_to_subseteq in Hr. rewrite sort_desc_perm in Hr.
  apply filter_messages_elem in Hr as (? & ? & ?). by exists r.
Qed.

(** X7: for a limit that is not negative the messages selected are the
    [limit] most recent of those that pass the filter (all of them when
    there are fewer), listed from the most recent to the oldest. *)
Theorem selected_messages_newest_first mw u limit :
  WeightService.filter_mode self <> py "disabled" ->
  0 <= limit ->
  exists sel rest,
    (WeightService.get_filtered_messages self mw u limit).2 = map rec_message_id sel
    /\ sel ++ rest ≡ₚ WeightService.filter_messages self (default [] (mw !! u))
    /\ StronglySorted (fun a b => rec_timestamp b <= rec_timestamp a) sel
    /\ (forall a b, a ∈ sel -> b ∈ rest -> rec_timestamp b <= rec_timestamp a)
    /\ length sel
       = Nat.min (Z.to_nat limit)
           (length (WeightService.filter_messages self (default [] (mw !! u)))).
Proof.
  intros Hd Hlimit.
  set (sorted := WeightService.sort_desc
                   (WeightService.filter_messages self (default [] (mw !! u)))).
  exists (take (Z.to_nat limit) sorted), (drop (Z.to_nat limit) sorted).
  pose proof (sort_desc_sorted
                (WeightService.filter_messages self (default [] (mw !! u)))) as Hs.
  fold sorted in Hs. rewrite <- (take_drop (Z.to_nat limit) sorted) in Hs.
  apply StronglySorted_app in Hs as (Hcross & Hsel & _).
  repeat split.
  - rewrite get_filtered_messages_ids by done. fold sorted. unfold slice_to.
    by rewrite (proj2 (Z.ltb_ge limit 0) Hlimit).
  - rewrite take_drop. apply sort_desc_perm.
  - done.
  - done.
  - rewrite length_take. unfold sorted. by rewrite sort_desc_perm.
Qed.

End Selection.

(** ** Admission *)

Lemma float_ge_trans a b c :
  float_ge a b = true -> float_ge b c = true -> float_ge a c = true.
Proof.
  destruct a as [x|[]|], b as [y|[]|], c as [z|[]|]; cbn; try done.
  rewrite !Qle_bool_iff. intros Hyx Hzy. by apply (Qle_trans z y x).
Qed.

(** X8: when the medium threshold is not above the high threshold, every
    score admitted under [selective] is admitted under [balanced]. *)
Theorem selective_admits_less (high medium s : pyfloat) (prompt : pystr) (ok : bool) :
  float_ge high medium = true ->
  Plugin.should_update_impression
    {| WeightService.high_threshold := high; WeightService.medium_threshold := medium;
       WeightService.filter_mode := py "selective";
       WeightService.weight_evaluation_prompt := prompt |} ok s = true ->
  Plugin.should_update_impression
    {| WeightService.high_threshold := high; WeightService.medium_threshold := medium;
       WeightService.filter_mode := py "balanced";
       WeightService.weight_evaluation_prompt := prompt |} ok s = true.
Proof.
  intros Hhm. unfold Plugin.should_update_impression.
  cbn [WeightService.filter_mode WeightService.high_threshold
       WeightService.medium_threshold].
  rewrite selective_not_disabled, balanced_not_disabled, balanced_not_selective.
  rewrite !bool_decide_eq_true_2 by done.
  destruct ok; [|done]. intros Hs. by eapply float_ge_trans.
Qed.

(** ** The impression parser: which dimensions are stored *)

Lemma dimensions_nodup : NoDup TextImpressionService.dimensions.
Proof. refine (bool_decide_unpack _ _). vm_compute. exact I. Qed.

Lemma extract_dimensions_other keys content acc key :
  key ∉ keys ->
  TextImpressionService.extract_dimensions keys content acc !! key = acc !! key.
Proof.
  revert acc. induction keys as [|k keys IH]; intros acc Hnot; [done|].
  apply not_elem_of_cons in Hnot as [Hne Hnot].
  cbn [TextImpressionService.extract_dimensions]. rewrite IH by done.
  repeat case_match; try done. by rewrite lookup_insert_ne.
Qed.

Lemma extract_dimensions_stored keys content acc key v :
  NoDup keys -> key ∈ keys ->
  TextImpressionService.extract key content = Some v ->
  v <> [] -> v <> TextImpressionService.sentinel ->
  TextImpressionService.extract_dimensions keys content acc !! key = Some v.
Proof.
  intros Hnd Hin Hx Hne Hns. revert acc.
  induction keys as [|k keys IH]; intros acc; [by apply elem_of_nil in Hin|].
  apply NoDup_cons in Hnd as [Hk Hnd].
  cbn [TextImpressionService.extract_dimensions].
  apply elem_of_cons in Hin as [<-|Hin]; [|by apply IH].
  rewrite extract_dimensions_other by done. rewrite Hx.
  destruct v as [|c v]; [done|].
  rewrite bool_decide_eq_false_2 by done. apply lookup_insert_eq.
Qed.

(** X9: the key-value strategy extracts every dimension on its own: a
    dimension is stored with value [v] exactly when it is one of the eight,
    its pattern captures a text whose stripped form is [v], and [v] is
    neither empty nor the sentinel; what the other seven patterns find, or
    fail to find, plays no part. *)
Theorem dimensions_extracted_independently (content key v : pystr) :
  TextImpressionService.extract_dimensions TextImpressionService.dimensions content ∅
  !! key = Some v
  <-> key ∈ TextImpressionService.dimensions
      /\ TextImpressionService.extract key content = Some v
      /\ v <> [] /\ v <> TextImpressionService.sentinel.
Proof.
  split.
  - intros Hv. apply extract_dimensions_lookup in Hv as [Hv|Hv]; [|done].
    by rewrite lookup_empty in Hv.
  - intros (Hin & Hx & Hne & Hns).
    by apply extract_dimensions_stored; [apply dimensions_nodup|..].
Qed.

Lemma parsed_key_in_dimensions (content key v : pystr) :
  TextImpressionService._parse_impression_response content !! key = Some v ->
  key ∈ TextImpressionService.dimensions.
Proof.
  unfold TextImpressionService._parse_impression_response. cbv zeta.
  case_bool_decide as Hstored.
  - rewrite Hstored. destruct (TextImpressionService.extract _ _) as [text|].
    + intros Hv. destruct (decide (py "interests_hobbies" = key)) as [<-|Hne].
      * unfold TextImpressionService.dimensions.
        apply list_elem_of_further, list_elem_of_here.
      * rewrite lookup_insert_ne in Hv by done. by rewrite lookup_empty in Hv.
    + by rewrite lookup_empty.
  - intros Hv. apply extract_dimensions_lookup in Hv as [Hv|Hv]; [|by destruct Hv].
    by rewrite lookup_empty in Hv.
Qed.

(** X10: whatever the answer of the classifier, the keys of the mapping the
    parser returns are among the eight dimensions; and when the key-value
    strategy stores nothing, the mapping is empty or holds
    [interests_hobbies] alone. *)
Theorem parsed_keys_are_dimensions (content key v : pystr) :
  (TextImpressionService._parse_impression_response content !! key = Some v ->
   key ∈ TextImpressionService.dimensions)
  /\ (TextImpressionService.extract_dimensions TextImpressionService.dimensions
        (strip content) ∅ = ∅ ->
      TextImpressionService._parse_impression_response content = ∅
      \/ exists text,
           TextImpressionService._parse_impression_response content
           = <[py "interests_hobbies" := text]> ∅).
Proof.
  split; [apply parsed_key_in_dimensions|].
  unfold TextImpressionService._parse_impression_response. cbv zeta.
  intros Hstored. rewrite Hstored. rewrite bool_decide_eq_true_2 by done.
  destruct (TextImpressionService.extract _ _) as [text|]; eauto.
Qed.

(** ** White space around an answer *)

Lemma lstrip_idem l : lstrip (lstrip l) = lstrip l.
Proof.
  induction l as [|c l IH]; cbn; [done|].
  destruct (py_isspace c) eqn:Hc; [done|]. cbn. by rewrite Hc.
Qed.

Lemma lstrip_snoc l c :
  py_isspace c = false -> exists s, lstrip (l ++ [c]) = s ++ [c].
Proof.
  intros Hc. induction l as [|x l [s IH]]; cbn.
  - rewrite Hc. by exists [].
  - destruct (py_isspace x); [by exists s|]. by exists (x :: l).
Qed.

Lemma strip_idem l : strip (strip l) = strip l.
Proof.
  unfold strip, rstrip.
  destruct (lstrip l) as [|c r] eqn:Hl; [done|].
  assert (Hc : py_isspace c = false).
  { assert (Hidem := lstrip_idem l). rewrite Hl in Hidem. cbn in Hidem.
    destruct (py_isspace c) eqn:Hc; [|done].
    apply (f_equal length) in Hidem. cbn in Hidem.
    assert (Hle : forall m, (length (lstrip m) <= length m)%nat).
    { clear. induction m as [|x m IH]; cbn; [lia|]. case_match; cbn; lia. }
    specialize (Hle r). lia. }
  cbn [rev]. destruct (lstrip_snoc (rev r) c Hc) as [s Hs].
  rewrite Hs, rev_app_distr. cbn [rev app lstrip]. rewrite Hc.
  cbn [rev]. rewrite rev_involutive, <- Hs, lstrip_idem, Hs.
  by rewrite rev_app_distr.
Qed.

(** X11: both parsers ignore white space around the answer: the answer
    and its stripped form are parsed to the same result. *)
Theorem parsers_ignore_surrounding_space {rt : PyRuntime} (content : pystr) :
  TextImpressionService._parse_impression_response (strip content)
  = TextImpressionService._parse_impression_response content
  /\ WeightService._parse_weight_response (strip content)
     = WeightService._parse_weight_response content.
Proof.
  unfold TextImpressionService._parse_impression_response,
    WeightService._parse_weight_response.
  by rewrite strip_idem.
Qed.

(** ** The profile merge: what it leaves alone *)

Section MergeFrame.
Context {rt : PyRuntime}.
Variable self : TextImpressionService.config.
Variable generate_impression_analysis : pystr -> bool * pystr.

(** X12: a merge that reports a failure (the prompt could not be built, the
    classifier failed, or nothing could be parsed) leaves the table of
    impressions exactly as it was. *)
Theorem failed_merge_changes_nothing db now u msg hist db' answer :
  TextImpressionService.build_impression self generate_impression_analysis
    db now u msg hist = (db', (false, answer)) ->
  db' = db.
Proof.
  unfold TextImpressionService.build_impression.
  destruct (TextImpressionService._build_prompt self hist msg) as [prompt|e];
    [|congruence].
  destruct (generate_impression_analysis prompt) as [success content].
  destruct success; cbn [negb]; [|congruence].
  case_bool_decide; congruence.
Qed.

(** X13: a successful merge touches the row of its user only, and in that
    row neither the affection score and level nor the creation time: an
    existing row keeps them and has its message count raised by one, a new
    row starts at 50.0, 一般 and a count of 1. Both times of last
    interaction and update are set to now, and the summary returned is
    always the fixed text 印象构建成功. *)
Theorem successful_merge_frame db now u msg hist db' summary :
  TextImpressionService.build_impression self generate_impression_analysis
    db now u msg hist = (db', (true, summary)) ->
  summary = py "印象构建成功"
  /\ (forall v, v <> u -> db' !! v = db !! v)
  /\ exists row',
       db' !! u = Some row'
       /\ ui_user_id row' = from_option ui_user_id u (db !! u)
       /\ last_interaction row' = now /\ updated_at row' = now
       /\ affection_score row' = from_option affection_score (FNum 50) (db !! u)
       /\ affection_level row' = from_option affection_level (py "一般") (db !! u)
       /\ created_at row' = from_option created_at now (db !! u)
       /\ message_count row' = from_option (fun row => message_count row + 1) 1 (db !! u).
Proof.
  unfold TextImpressionService.build_impression.
  destruct (TextImpressionService._build_prompt self hist msg) as [prompt|e];
    [|congruence].
  destruct (generate_impression_analysis prompt) as [success content].
  destruct success; cbn [negb]; [|congruence].
  case_bool_decide as Hdata; [congruence|].
  intros Heq.
  assert (Hsum : summary = py "印象构建成功").
  { apply (f_equal (fun r => r.2.2)) in Heq. cbn in Heq. subst summary.
    destruct (TextImpressionService._parse_impression_response content
              !! py "impression") as [v|] eqn:Hv; [|done].
    apply parsed_key_in_dimensions in Hv.
    unfold TextImpressionService.dimensions in Hv.
    repeat (apply elem_of_cons in Hv as [Hv|Hv];
            [vm_compute in Hv; discriminate|]).
    by apply elem_of_nil in Hv. }
  apply (f_equal fst) in Heq. cbn [fst] in Heq. subst db'.
  unfold TextImpressionService._save_impression.
  split; [done|]. split.
  - intros v Hv. destruct (db !! u); by rewrite lookup_insert_ne.
  - destruct (db !! u) as [row|]; eexists;
      (split; [apply lookup_insert_eq|done]).
Qed.

End MergeFrame.

(** ** The methods of the row *)

Lemma lookup_name_elem k v d :
  UserImpressionModel.lookup_name k d = Some v -> (k, v) ∈ d.
Proof.
  induction d as [|[k' v'] d IH]; cbn; [done|].
  case_bool_decide as Hk.
  - intros [= ->]. subst. apply list_elem_of_here.
  - intros Hv. apply list_elem_of_further. by apply IH.
Qed.

(** X14: [set_dimension] and [get_dimension] agree on the eight short
    names: after setting a dimension by its short name, reading it gives the
    new content, every other short name reads as before, the update time is
    now and score, level and count are untouched; a name that is not one of
    the eight makes [set_dimension] raise and reads as the empty text. *)
Theorem set_then_get_dimension (self : UserImpression) (now : Z)
    (dimension content : pystr) :
  (is_Some (UserImpressionModel.lookup_name dimension UserImpressionModel.dimension_map) ->
   exists self',
     UserImpressionModel.set_dimension self now dimension content = Ret self'
     /\ UserImpressionModel.get_dimension self' dimension = content
     /\ (forall other, other <> dimension ->
           UserImpressionModel.get_dimension self' other
           = UserImpressionModel.get_dimension self other)
     /\ updated_at self' = now
     /\ affection_score self' = affection_score self
     /\ affection_level self' = affection_level self
     /\ message_count self' = message_count self)
  /\ (UserImpressionModel.lookup_name dimension UserImpressionModel.dimension_map = None ->
      UserImpressionModel.set_dimension self now dimension content
      = Raise (py "未知维度: " ++ dimension)
      /\ UserImpressionModel.get_dimension self dimension = []).
Proof.
  split.
  - intros [field Hfield]. unfold UserImpressionModel.set_dimension.
    rewrite Hfield. eexists. split; [done|].
    unfold UserImpressionModel.get_dimension. rewrite Hfield.
    apply lookup_name_elem in Hfield.
    unfold UserImpressionModel.dimension_map in Hfield.
    repeat (apply elem_of_cons in Hfield as [[= -> ->]|Hfield]);
      try (by apply elem_of_nil in Hfield);
      (split; [vm_compute; reflexivity|]);
      (split; [|by vm_compute]);
      intros other Hne;
      (destruct (UserImpressionModel.lookup_name other
                   UserImpressionModel.dimension_map) as [f|] eqn:Hother;
       [|vm_compute; reflexivity]);
      apply lookup_name_elem in Hother;
      unfold UserImpressionModel.dimension_map in Hother;
      repeat (apply elem_of_cons in Hother as [[= -> ->]|Hother]);
      try (by apply elem_of_nil in Hother);
      try (by destruct Hne);
      vm_compute; reflexivity.
  - intros Hnone. unfold UserImpressionModel.set_dimension,
      UserImpressionModel.get_dimension.
    rewrite Hnone. split; [done|]. vm_compute; reflexivity.
Qed.

(** ** The summary of a row *)

Lemma str_join_head sep c l rest :
  exists t, UserImpressionModel.str_join sep ((c :: l) :: rest) = c :: t.
Proof. destruct rest; cbn; eauto. Qed.

Lemma labelled_summary_differs label value rest c l :
  label = c :: l -> c <> 26242%N ->
  UserImpressionModel.str_join (py " | ") ((label ++ value) :: rest)
  <> py "暂无印象数据".
Proof.
  intros -> Hc. cbn [app].
  destruct (str_join_head (py " | ") c (l ++ value) rest) as [t ->].
  intros Heq. vm_compute in Heq. by injection Heq.
Qed.

(** One dimension of the summary: blank, or else the summary starts with
    its label and is not the placeholder. *)
Ltac blank_or_labelled v :=
  let H := fresh "Hblank" in
  destruct (strip v) eqn:H;
  [|split;
    [cbn [app]; intros Hs; exfalso; revert Hs;
     eapply labelled_summary_differs;
     [vm_compute; reflexivity|intros Heq; discriminate]
    |intros Hall; decompose [and] Hall; discriminate]].

(** X15: the summary of a row is the placeholder 暂无印象数据 exactly when
    all eight dimensions are blank (empty once stripped); as soon as one
    dimension has content the summary is another text. *)
Theorem summary_placeholder_iff_blank (self : UserImpression) :
  UserImpressionModel.get_impression_summary self = py "暂无印象数据"
  <-> strip (personality_traits self) = []
      /\ strip (interests_hobbies self) = []
      /\ strip (communication_style self) = []
      /\ strip (emotional_tendencies self) = []
      /\ strip (behavioral_patterns self) = []
      /\ strip (values_attitudes self) = []
      /\ strip (relationship_preferences self) = []
      /\ strip (growth_development self) = [].
Proof.
  unfold UserImpressionModel.get_impression_summary,
    UserImpressionModel.summary_part.
  blank_or_labelled (personality_traits self).
  blank_or_labelled (interests_hobbies self).
  blank_or_labelled (communication_style self).
  blank_or_labelled (emotional_tendencies self).
  blank_or_labelled (behavioral_patterns self).
  blank_or_labelled (values_attitudes self).
  blank_or_labelled (relationship_preferences self).
  blank_or_labelled (growth_development self).
  cbn [app]. by repeat split.
Qed.

(** ** The records of processed messages *)

Lemma find_app_none {A} (f : A -> bool) (l1 l2 : list A) :
  List.find f l1 = None -> List.find f (l1 ++ l2) = List.find f l2.
Proof.
  induction l1 as [|x l1 IH]; cbn; [done|]. destruct (f x); [done|exact IH].
Qed.

Lemma find_app_some {A} (f : A -> bool) (l1 l2 : list A) x :
  List.find f l1 = Some x -> List.find f (l1 ++ l2) = Some x.
Proof.
  induction l1 as [|y l1 IH]; cbn; [done|]. destruct (f y); [done|exact IH].
Qed.

Lemma first_record_some_elem (tbl : MessageService.records) (u m : pystr) r :
  MessageService.first_record tbl u m = Some r ->
  r ∈ tbl /\ imr_user_id r = u /\ imr_message_id r = m.
Proof.
  unfold MessageService.first_record. intros Hr.
  apply find_some in Hr as [Hin Hr]. apply andb_true_iff in Hr as [Hu Hm].
  apply bool_decide_eq_true_1 in Hu, Hm. by rewrite list_elem_of_In.
Qed.

(** X16: [record_processed_message] only ever appends to the table, and it
    keeps the pairs of user and message id of the table free of
    duplicates. *)
Theorem recorded_pairs_stay_unique (tbl : MessageService.records) (now : Z)
    (u m : pystr) (i : option pystr) :
  NoDup (map (fun r => (imr_user_id r, imr_message_id r)) tbl) ->
  NoDup (map (fun r => (imr_user_id r, imr_message_id r))
           (MessageService.record_processed_message tbl now u m i).1)
  /\ tbl `prefix_of` (MessageService.record_processed_message tbl now u m i).1.
Proof.
  intros Hnd. unfold MessageService.record_processed_message.
  destruct (MessageService.first_record tbl u m) as [r|] eqn:Hr; cbn [fst].
  - by split.
  - split; [|by apply prefix_app_r].
    rewrite map_app. cbn. apply NoDup_app. split; [done|]. split.
    + intros p Hp Hp'. apply list_elem_of_singleton in Hp' as ->.
      apply list_elem_of_fmap in Hp as (r & [= Hu Hm] & Hin).
      unfold MessageService.first_record in Hr.
      apply list_elem_of_In in Hin.
      pose proof (find_none _ _ Hr r Hin) as Hf. cbn in Hf.
      by rewrite <- Hu, <- Hm, !bool_decide_eq_true_2 in Hf.
    + apply NoDup_singleton.
Qed.

(** X17: after [record_processed_message] for a pair, the pairs that count
    as processed are those that did before and that pair, and no other. *)
Theorem processed_after_record (tbl : MessageService.records) (now : Z)
    (u m u' m' : pystr) (i : option pystr) :
  MessageService.is_message_processed
    (MessageService.record_processed_message tbl now u' m' i).1 u m
  = MessageService.is_message_processed tbl u m
    || bool_decide (u = u') && bool_decide (m = m').
Proof.
  unfold MessageService.record_processed_message,
    MessageService.is_message_processed.
  destruct (MessageService.first_record tbl u' m') as [r'|] eqn:Hr'; cbn [fst].
  - destruct (MessageService.first_record tbl u m) eqn:Hr; [done|].
    case_bool_decide as Hu; [|done]. case_bool_decide as Hm; [|done].
    subst. congruence.
  - destruct (MessageService.first_record tbl u m) as [r|] eqn:Hr;
      unfold MessageService.first_record in Hr |- *.
    + by rewrite (find_app_some _ _ _ _ Hr).
    + rewrite (find_app_none _ _ _ Hr). cbn.
      rewrite (bool_decide_ext (u' = u) (u = u')) by done.
      rewrite (bool_decide_ext (m' = m) (m = m')) by done.
      by destruct (bool_decide (u = u') && bool_decide (m = m')).
Qed.

(** ** The counters of the message state *)


(** X19: [get_message_state] always returns a row, which is then in the
    table: the row of the user when there is one, and otherwise a new row
    with every counter at 0, which it adds; no other user is touched, and an
    update gives the same table whether or not the state was read first. *)
Theorem reading_state_creates_row (tbl : MessageService.states) (now : Z)
    (u m : pystr) (iu au : bool) :
  let result := MessageStateQueries.get_message_state tbl u in
  is_Some result.2
  /\ result.1 !! u = result.2
  /\ (forall v, v <> u -> result.1 !! v = tbl !! v)
  /\ (forall row, tbl !! u = Some row -> result = (tbl, Some row))
  /\ (tbl !! u = None ->
      exists row,
        result.2 = Some row
        /\ total_messages row = 0 /\ processed_messages row = 0
        /\ impression_update_count row = 0 /\ affection_update_count row = 0
        /\ last_message_id row = None)
  /\ MessageService.update_message_state result.1 now u m iu au
     = MessageService.update_message_state tbl now u m iu au.
Proof.
  unfold MessageStateQueries.get_message_state.
  destruct (tbl !! u) as [row|] eqn:Hrow; cbv zeta; cbn [fst snd].
  - repeat split; try done. by intros ? [= ->].
  - repeat split; try done.
    + by rewrite lookup_insert_eq.
    + intros v Hv. by rewrite lookup_insert_ne.
    + intros _. eexists. by repeat split.
    + unfold MessageService.update_message_state.
      rewrite lookup_insert_eq, Hrow. cbn. by rewrite insert_insert_eq.
Qed.

(** ** utils/helpers.py *)

(** X20: [validate_config] accepts a configuration exactly when every
    required key is in it with a value that is not falsy, and then its
    message is empty; otherwise the message names a key that is missing or
    empty. *)
Theorem validate_config_accepts (config : list (pystr * json)) (required_keys : list pystr) :
  ((Helpers.validate_config config required_keys).1 = true
   <-> forall key, key ∈ required_keys ->
         exists v, dict_get key config = Some v /\ Helpers.truthy v = true)
  /\ ((Helpers.validate_config config required_keys).1 = true ->
      (Helpers.validate_config config required_keys).2 = [])
  /\ ((Helpers.validate_config config required_keys).1 = false ->
      exists key,
        key ∈ required_keys
        /\ ((dict_get key config = None
             /\ (Helpers.validate_config config required_keys).2
                = py "缺少配置项: " ++ key)
            \/ (Helpers.truthy <$> dict_get key config = Some false
                /\ (Helpers.validate_config config required_keys).2
                   = py "配置项为空: " ++ key))).
Proof.
  induction required_keys as [|k keys (IHiff & IHok & IHbad)];
    cbn [Helpers.validate_config].
  { split; [|done]. split; [|done].
    intros _ key Hkey. by apply elem_of_nil in Hkey. }
  destruct (dict_get k config) as [v|] eqn:Hk; cbn.
  - destruct (Helpers.truthy v) eqn:Hv; cbn.
    + split; [|split].
      * rewrite IHiff. split.
        -- intros Hall key [->|Hkey]%elem_of_cons; eauto.
        -- intros Hall key Hkey. apply Hall, elem_of_cons. by right.
      * done.
      * intros Hbad. destruct (IHbad Hbad) as (key & Hkey & Hwhy).
        exists key. split; [apply elem_of_cons; by right|done].
    + split; [|split].
      * split; [done|]. intros Hall.
        destruct (Hall k) as (v' & Hv' & Ht); [apply elem_of_cons; by left|].
        congruence.
      * done.
      * intros _. exists k. split; [apply elem_of_cons; by left|].
        right. by rewrite Hk, <- Hv.
  - split; [|split].
    + split; [done|]. intros Hall.
      destruct (Hall k) as (v' & Hv' & Ht); [apply elem_of_cons; by left|].
      congruence.
    + done.
    + intros _. exists k. split; [apply elem_of_cons; by left|]. by left.
Qed.

Section AffectionLevelProperties.
Context {rt : PyRuntime}.
Variable AFFECTION_LEVELS : list ((pyfloat * pyfloat) * pystr).

Lemma level_of_band bands score :
  Helpers.level_of bands score = py "一般"
  \/ exists lo hi,
       ((lo, hi), Helpers.level_of bands score) ∈ bands
       /\ float_ge score lo = true /\ float_ge hi score = true.
Proof.
  induction bands as [|[[lo hi] level] bands IH]; cbn; [by left|].
  destruct (float_ge score lo && float_ge hi score) eqn:Hin.
  - apply andb_true_iff in Hin as [? ?]. right. exists lo, hi.
    split; [apply list_elem_of_here|done].
  - destruct IH as [?|(lo' & hi' & ? & ? & ?)]; [by left|].
    right. exists lo', hi'. split; [by apply list_elem_of_further|done].
Qed.

Lemma level_of_nan bands : Helpers.level_of bands FNaN = py "一般".
Proof. induction bands as [|[[lo hi] level] bands IH]; cbn; done. Qed.

(** X21: whatever the table of bands, the level [get_affection_level]
    returns is the default 一般 or the level of a band that contains the
    score, bounds included; a score that is not a number, and the float
    NaN, always get the default. *)
Theorem affection_level_in_band (score : json) (level : pystr) :
  Helpers.get_affection_level AFFECTION_LEVELS score = Ret level ->
  (level = py "一般"
   \/ exists lo hi f,
        ((lo, hi), level) ∈ AFFECTION_LEVELS
        /\ WeightService.py_float score = Ret f
        /\ float_ge f lo = true /\ float_ge hi f = true)
  /\ (score = JFloat FNaN -> level = py "一般")
  /\ (match score with JInt _ | JFloat _ | JBool _ => False | _ => True end ->
      level = py "一般").
Proof.
  intros Hlevel. split; [|split].
  - destruct score as [|b|z|f|s|items|pairs]; cbn in Hlevel;
      try (injection Hlevel as <-; by left).
    + injection Hlevel as <-.
      destruct (level_of_band AFFECTION_LEVELS (FNum (if b then 1 else 0)))
        as [?|(lo & hi & ? & ? & ?)]; [by left|].
      right. exists lo, hi, (FNum (if b then 1 else 0)). by destruct b.
    + destruct (float_of_int z) as [f|e] eqn:Hf; cbn in Hlevel; [|done].
      injection Hlevel as <-.
      destruct (level_of_band AFFECTION_LEVELS f) as [?|(lo & hi & ? & ? & ?)];
        [by left|].
      right. exists lo, hi, f. cbn. by rewrite Hf.
    + injection Hlevel as <-.
      destruct (level_of_band AFFECTION_LEVELS f) as [?|(lo & hi & ? & ? & ?)];
        [by left|].
      right. by exists lo, hi, f.
  - intros ->. cbn in Hlevel. injection Hlevel as <-. apply level_of_nan.
  - destruct score; try done; cbn in Hlevel; intros _; by injection Hlevel as <-.
Qed.

End AffectionLevelProperties.

(** ** The client without credentials *)

Section Unconfigured.
Context {rt : PyRuntime}.
Variable weight_config : WeightService.config.
Variable impression_config : TextImpressionService.config.
Variable llm_config : LLMClient.config.
Variable provider_generate : pystr -> Q -> Z -> bool * pystr.


End Unconfigured.

(** ** The handler *)

Lemma record_keeps_processed (tbl : MessageService.records) now (u m u' m' : pystr) i :
  MessageService.is_message_processed tbl u m = true ->
  MessageService.is_message_processed
    (MessageService.record_processed_message tbl now u' m' i).1 u m = true.
Proof.
  unfold MessageService.record_processed_message,
    MessageService.is_message_processed.
  destruct (MessageService.first_record tbl u' m'); cbn [fst]; [done|].
  destruct (MessageService.first_record tbl u m) as [r|] eqn:Hr; [|done].
  intros _. unfold MessageService.first_record in Hr |- *.
  by rewrite (find_app_some _ _ _ _ Hr).
Qed.

Lemma record_makes_processed (tbl : MessageService.records) now (u m : pystr) i :
  MessageService.is_message_processed
    (MessageService.record_processed_message tbl now u m i).1 u m = true.
Proof.
  unfold MessageService.record_processed_message,
    MessageService.is_message_processed.
  destruct (MessageService.first_record tbl u m) as [r|] eqn:Hr; cbn [fst].
  - by rewrite Hr.
  - by rewrite (first_record_snoc tbl u m i now Hr).
Qed.

Lemma record_all_keeps_processed (tbl : MessageService.records) now (u m user : pystr) ids :
  MessageService.is_message_processed tbl u m = true ->
  MessageService.is_message_processed
    (foldl (fun tbl msg_id =>
              (MessageService.record_processed_message tbl now user msg_id None).1)
           tbl ids) u m = true.
Proof.
  revert tbl. induction ids as [|id ids IH]; intros tbl Hp; [done|].
  cbn [foldl]. by apply IH, record_keeps_processed.
Qed.

Lemma record_all_makes_processed (tbl : MessageService.records) now (user id : pystr) ids :
  id ∈ ids ->
  MessageService.is_message_processed
    (foldl (fun tbl msg_id =>
              (MessageService.record_processed_message tbl now user msg_id None).1)
           tbl ids) user id = true.
Proof.
  revert tbl. induction ids as [|x ids IH]; intros tbl Hin;
    [by apply elem_of_nil in Hin|].
  cbn [foldl]. apply elem_of_cons in Hin as [->|Hin]; [|by apply IH].
  apply record_all_keeps_processed, record_makes_processed.
Qed.

Section HandlerProperties.
Context {rt : PyRuntime}.
Variable weight_config : WeightService.config.
Variable impression_config : TextImpressionService.config.
Variable llm_config : LLMClient.config.
Variable provider_generate : pystr -> Q -> Z -> bool * pystr.
Variable update_affection :
  TextImpressionService.impressions -> Z -> pystr -> pystr ->
  TextImpressionService.impressions * raised (bool * pystr).

(** The four components of the world [enrich] returns. *)
Lemma enrich_world w now mid user content :
  let evaluated :=
    WeightService.evaluate_message weight_config
      (LLMClient.generate_weight_evaluation llm_config provider_generate)
      (Handler.weights w) now user mid content [] in
  let selected :=
    WeightService.get_filtered_messages weight_config evaluated.1 user 10 in
  let w' :=
    Handler.enrich weight_config impression_config llm_config provider_generate
      update_affection w now mid user content in
  Handler.weights w' = evaluated.1
  /\ Handler.records w'
     = (MessageService.record_processed_message
          (foldl (fun tbl msg_id =>
                    (MessageService.record_processed_message tbl now user msg_id None).1)
                 (Handler.records w) selected.2)
          now user mid None).1
  /\ (exists impression_updated affection_updated,
        Handler.states w'
        = MessageService.update_message_state (Handler.states w) now user mid
            impression_updated affection_updated)
  /\ Handler.impressions w'
     = (update_affection
          (if Plugin.should_update_impression weight_config
                evaluated.2.1.1 evaluated.2.1.2
           then (TextImpressionService.build_impression impression_config
                   (LLMClient.generate_impression_analysis llm_config provider_generate)
                   (Handler.impressions w) now user content selected.1).1
           else Handler.impressions w)
          now user content).1.
Proof.
  cbv zeta. unfold Handler.enrich.
  destruct (WeightService.evaluate_message _ _ _ _ _ _ _ _) as [mw [[ok score] lv]].
  cbn [fst snd].
  destruct (WeightService.get_filtered_messages _ _ _ _) as [hc ids].
  cbn [fst snd].
  destruct (Plugin.should_update_impression _ _ _).
  - destruct (TextImpressionService.build_impression _ _ _ _ _ _ _)
      as [db [success answer]]. cbn [fst].
    destruct (update_affection db now user content) as [db' [[s a]|e]];
      cbn; eauto 10.
  - destruct (update_affection _ now user content) as [db' [[s a]|e]];
      cbn; eauto 10.
Qed.

(** The two answers of the search for the user. *)
Lemma locate_message_answers ev answer :
  Handler.locate_message ev = inl answer ->
  answer = py "无法从事件数据中提取用户ID" \/ answer = py "无法获取用户ID".
Proof.
  unfold Handler.locate_message.
  repeat case_match; intros Heq; try discriminate; injection Heq as <-;
    repeat match goal with H : inl _ = inl _ |- _ => injection H as <- end;
    lazymatch goal with
    | |- ?a = ?a \/ _ => left
    | |- _ \/ ?a = ?a => right
    end; reflexivity.
Qed.

(** When [handle] answers that the update is complete. *)
Lemma handle_done_inv w now mid ev w' :
  Handler.handle weight_config impression_config llm_config provider_generate
    update_affection w now mid ev = (w', py "印象和好感度更新完成") ->
  exists user m,
    Handler.locate_message ev = inr (user, m)
    /\ Handler._extract_message_content m <> []
    /\ MessageService.is_message_processed (Handler.records w) user mid = false
    /\ w' = Handler.enrich weight_config impression_config llm_config provider_generate
              update_affection w now mid user (Handler._extract_message_content m).
Proof.
  unfold Handler.handle.
  destruct (LLMClient._create_provider llm_config) as [[]|e].
  2:{ intros Habs. apply (f_equal (fun r => take 1 r.2)) in Habs.
      vm_compute in Habs. discriminate. }
  destruct (Handler.locate_message ev) as [answer|[user m]] eqn:Hloc.
  { intros Habs. apply (f_equal snd) in Habs.
    apply locate_message_answers in Hloc as [Ha|Ha]; rewrite Ha in Habs;
      vm_compute in Habs; discriminate. }
  destruct (Handler._extract_message_content m) as [|c content] eqn:Hcontent.
  { intros Habs. apply (f_equal snd) in Habs. vm_compute in Habs. discriminate. }
  destruct (MessageService.is_message_processed _ _ _) eqn:Hp.
  { intros Habs. apply (f_equal snd) in Habs. vm_compute in Habs. discriminate. }
  intros Hw. injection Hw as <-.
  exists user, m. rewrite Hcontent. by repeat split.
Qed.

(** X23: unless [handle] answers that the update is complete, it has
    changed nothing: a provider that cannot be created, an event without a
    user or without text and a message that is already recorded all leave
    the histories and the three tables as they were. *)
Theorem handle_changes_nothing_unless_done w now mid ev w' answer :
  Handler.handle weight_config impression_config llm_config provider_generate
    update_affection w now mid ev = (w', answer) ->
  answer <> py "印象和好感度更新完成" ->
  w' = w.
Proof.
  unfold Handler.handle. intros Hh Hanswer. revert Hh.
  destruct (LLMClient._create_provider llm_config);
    [|intros Hh; exact (eq_sym (f_equal fst Hh))].
  destruct (Handler.locate_message ev) as [early|[user m]];
    [intros Hh; exact (eq_sym (f_equal fst Hh))|].
  destruct (Handler._extract_message_content m);
    [intros Hh; exact (eq_sym (f_equal fst Hh))|].
  destruct (MessageService.is_message_processed _ _ _);
    [intros Hh; exact (eq_sym (f_equal fst Hh))|].
  intros Hh. exfalso. apply Hanswer. injection Hh as _ Ha. exact (eq_sym Ha).
Qed.

(** X24: when [handle] answers that the update is complete, the message
    was not recorded before and is recorded now, whatever became of the
    evaluation, the merge and the affection update; and every pair recorded
    before is still recorded. *)
Theorem handled_message_is_recorded w now mid ev w' :
  Handler.handle weight_config impression_config llm_config provider_generate
    update_affection w now mid ev = (w', py "印象和好感度更新完成") ->
  exists user m,
    Handler.locate_message ev = inr (user, m)
    /\ MessageService.is_message_processed (Handler.records w) user mid = false
    /\ MessageService.is_message_processed (Handler.records w') user mid = true
    /\ forall u' m', MessageService.is_message_processed (Handler.records w) u' m' = true ->
                     MessageService.is_message_processed (Handler.records w') u' m' = true.
Proof.
  intros (user & m & Hloc & Hcontent & Hfresh & ->)%handle_done_inv.
  exists user, m. repeat split; try done.
  - rewrite (proj1 (proj2 (enrich_world w now mid user _))).
    apply record_makes_processed.
  - intros u' m' Hp.
    rewrite (proj1 (proj2 (enrich_world w now mid user _))).
    by apply record_keeps_processed, record_all_keeps_processed.
Qed.

(** X25: a message that is handled to completion is counted once: the row
    of its user has both message counters one above what they were (0 for a
    user without a row), its last message id is the id of the message, and
    the rows of the other users are untouched. *)
Theorem handled_message_is_counted w now mid ev w' :
  Handler.handle weight_config impression_config llm_config provider_generate
    update_affection w now mid ev = (w', py "印象和好感度更新完成") ->
  exists user m st,
    Handler.locate_message ev = inr (user, m)
    /\ Handler.states w' !! user = Some st
    /\ total_messages st
       = from_option total_messages 0 (Handler.states w !! user) + 1
    /\ processed_messages st
       = from_option processed_messages 0 (Handler.states w !! user) + 1
    /\ last_message_id st = Some mid
    /\ forall v, v <> user -> Handler.states w' !! v = Handler.states w !! v.
Proof.
  intros (user & m & Hloc & Hcontent & Hfresh & ->)%handle_done_inv.
  destruct (enrich_world w now mid user (Handler._extract_message_content m))
    as (_ & _ & (iu & au & Hst) & _).
  cbv zeta in Hst. rewrite Hst.
  unfold MessageService.update_message_state.
  exists user, m. eexists. split; [done|].
  split; [apply lookup_insert_eq|].
  repeat split; try (by destruct (Handler.states w !! user)).
  intros v Hv. by rewrite lookup_insert_ne.
Qed.

(** X26: every message the handler offers as context is recorded as
    processed with the message itself: after a complete update, each id
    that [get_filtered_messages] selects from the histories is recorded for
    the user. *)
Theorem context_messages_are_recorded w now mid ev w' id :
  Handler.handle weight_config impression_config llm_config provider_generate
    update_affection w now mid ev = (w', py "印象和好感度更新完成") ->
  exists user m,
    Handler.locate_message ev = inr (user, m)
    /\ (id ∈ (WeightService.get_filtered_messages weight_config
                (Handler.weights w') user 10).2 ->
        MessageService.is_message_processed (Handler.records w') user id = true).
Proof.
  intros (user & m & Hloc & Hcontent & Hfresh & ->)%handle_done_inv.
  exists user, m. split; [done|].
  destruct (enrich_world w now mid user (Handler._extract_message_content m))
    as (Hw & Hr & _). cbv zeta in Hw, Hr. rewrite Hw, Hr.
  intros Hid. by apply record_keeps_processed, record_all_makes_processed.
Qed.

Local Ltac by_sides :=
  match goal with |- (if ?b then _ else _) = _ => destruct b; reflexivity end.

(** X27: a message that is not admitted reaches the table of impressions
    through the affection service only: when the evaluation failed, or the
    score is below the threshold of the mode, or the mode is none of the
    three, the table after a complete update is the one the affection
    service returns on the table as it was. *)
Theorem unadmitted_message_skips_merge w now mid ev w' :
  Handler.handle weight_config impression_config llm_config provider_generate
    update_affection w now mid ev = (w', py "印象和好感度更新完成") ->
  exists user m,
    Handler.locate_message ev = inr (user, m)
    /\ let content := Handler._extract_message_content m in
       let evaluated :=
         WeightService.evaluate_message weight_config
           (LLMClient.generate_weight_evaluation llm_config provider_generate)
           (Handler.weights w) now user mid content [] in
       (evaluated.2.1.1 = false
        \/ (WeightService.filter_mode weight_config = py "selective"
            /\ float_ge evaluated.2.1.2 (WeightService.high_threshold weight_config)
               = false)
        \/ (WeightService.filter_mode weight_config = py "balanced"
            /\ float_ge evaluated.2.1.2 (WeightService.medium_threshold weight_config)
               = false)
        \/ (WeightService.filter_mode weight_config <> py "disabled"
            /\ WeightService.filter_mode weight_config <> py "selective"
            /\ WeightService.filter_mode weight_config <> py "balanced")) ->
       Handler.impressions w'
       = (update_affection (Handler.impressions w) now user content).1.
Proof.
  intros (user & m & Hloc & Hcontent & Hfresh & ->)%handle_done_inv.
  exists user, m. split; [done|]. cbv zeta. intros Hnot.
  destruct (enrich_world w now mid user (Handler._extract_message_content m))
    as (_ & _ & _ & Hdb). cbv zeta in Hdb. rewrite Hdb.
  assert (Hgate : Plugin.should_update_impression weight_config
            (WeightService.evaluate_message weight_config
               (LLMClient.generate_weight_evaluation llm_config provider_generate)
               (Handler.weights w) now user mid
               (Handler._extract_message_content m) []).2.1.1
            (WeightService.evaluate_message weight_config
               (LLMClient.generate_weight_evaluation llm_config provider_generate)
               (Handler.weights w) now user mid
               (Handler._extract_message_content m) []).2.1.2 = false).
  { unfold Plugin.should_update_impression.
    destruct Hnot as [->|[[Hm Hs]|[[Hm Hs]|(Hd & Hs & Hb)]]]; [done|..].
    - rewrite Hm, Hs, selective_not_disabled, bool_decide_eq_true_2 by done.
      by_sides.
    - rewrite Hm, Hs, balanced_not_disabled, balanced_not_selective,
        bool_decide_eq_true_2 by done.
      by_sides.
    - rewrite !bool_decide_eq_false_2 by done. by_sides. }
  by rewrite Hgate.
Qed.

(** X28: the check for a processed message is keyed on the message id
    that [handle] takes from the clock, not on the event. After a complete
    update, a run of [handle] on the same event that gets the same id (the
    clock reads the same millisecond) answers that the message is already
    processed and changes nothing, while a run that gets an id not yet
    recorded for the user handles the same event again to completion and
    counts it once more. *)
Theorem dedup_is_keyed_on_message_id w now mid ev w' now2 :
  Handler.handle weight_config impression_config llm_config provider_generate
    update_affection w now mid ev = (w', py "印象和好感度更新完成") ->
  Handler.handle weight_config impression_config llm_config provider_generate
    update_affection w' now2 mid ev = (w', py "消息已处理，跳过")
  /\ exists user m st,
       Handler.locate_message ev = inr (user, m)
       /\ Handler.states w' !! user = Some st
       /\ forall mid2,
            MessageService.is_message_processed (Handler.records w') user mid2 = false ->
            exists w'' st2,
              Handler.handle weight_config impression_config llm_config
                provider_generate update_affection w' now2 mid2 ev
              = (w'', py "印象和好感度更新完成")
              /\ Handler.states w'' !! user = Some st2
              /\ total_messages st2 = total_messages st + 1
              /\ processed_messages st2 = processed_messages st + 1
              /\ last_message_id st2 = Some mid2.
Proof.
  intros Hdone.
  assert (Hprovider : exists p, LLMClient._create_provider llm_config = Ret p).
  { revert Hdone. unfold Handler.handle.
    destruct (LLMClient._create_provider llm_config) as [p|e]; [by exists p|].
    intros Habs. apply (f_equal (fun r => take 1 r.2)) in Habs.
    vm_compute in Habs. discriminate. }
  destruct Hprovider as [p Hprovider].
  apply handle_done_inv in Hdone as (user & m & Hloc & Hcontent & Hfresh & Hw').
  assert (Hrec : MessageService.is_message_processed (Handler.records w') user mid
                 = true).
  { rewrite Hw', (proj1 (proj2 (enrich_world w now mid user _))).
    apply record_makes_processed. }
  assert (Hst : exists st, Handler.states w' !! user = Some st).
  { destruct (enrich_world w now mid user (Handler._extract_message_content m))
      as (_ & _ & (iu & au & Hstates) & _).
    cbv zeta in Hstates. rewrite Hw', Hstates.
    unfold MessageService.update_message_state. eexists. apply lookup_insert_eq. }
  destruct Hst as [st Hst].
  destruct (Handler._extract_message_content m) as [|c content] eqn:Hm;
    [by destruct Hcontent|].
  split.
  { unfold Handler.handle. rewrite Hprovider, Hloc, Hm, Hrec. reflexivity. }
  exists user, m, st. split; [done|]. split; [done|].
  intros mid2 Hfresh2.
  destruct (enrich_world w' now2 mid2 user (c :: content))
    as (_ & _ & (iu & au & Hstates) & _).
  cbv zeta in Hstates.
  eexists _, _. split.
  { unfold Handler.handle. rewrite Hprovider, Hloc, Hm, Hfresh2. reflexivity. }
  rewrite Hstates. unfold MessageService.update_message_state. rewrite Hst.
  split; [apply lookup_insert_eq|]. by repeat split.
Qed.

End HandlerProperties.

(** ** The further properties at work *)

(** A message is scored 80; then 99 other messages of the user and one of
    another user are evaluated, and the classifier would now answer 10. One
    more message of the user and the record is gone. *)
Lemma reevaluation_is_idempotent_witness :
  let cfg := example_config (py "selective") in
  let first := answering true (py "WEIGHT_SCORE: 80;WEIGHT_LEVEL: high") in
  let later := answering true (py "WEIGHT_SCORE: 10;WEIGHT_LEVEL: low") in
  let saved :=
    WeightService._save_weight ∅ 1 (py "u") (py "m1") (py "我喜欢科幻小说") []
      (FNum 80) (JStr (py "high")) in
  let revisit calls :=
    (WeightService.evaluate_message (rt := example_runtime) cfg later
       (WeightRuns.run (rt := example_runtime) cfg saved calls)
       9 (py "u") (py "m1") (py "你好") (py "ctx")).2 in
  WeightService.evaluate_message (rt := example_runtime) cfg first
    ∅ 1 (py "u") (py "m1") (py "我喜欢科幻小说") []
  = (saved, (true, FNum 80, JStr (py "high")))
  /\ revisit [] = (true, FNum 80, JStr (py "high"))
  /\ revisit (other_messages (py "v") 1 ++ other_messages (py "u") 99)
     = (true, FNum 80, JStr (py "high"))
  /\ revisit (other_messages (py "u") 100) = (true, FNum 10, JStr (py "low")).
Proof.
  intros cfg first later saved revisit.
  assert (Hfirst : WeightService.evaluate_message (rt := example_runtime) cfg first
                     ∅ 1 (py "u") (py "m1") (py "我喜欢科幻小说") []
                   = (saved, (true, FNum 80, JStr (py "high"))))
    by (vm_compute; reflexivity).
  destruct (reevaluation_is_idempotent (rt := example_runtime) cfg first later
              ∅ 1 (py "u") (py "m1") (py "我喜欢科幻小说") [] saved (FNum 80)
              (JStr (py "high")) Hfirst) as [Honce Hlater].
  split; [exact Hfirst|]. split; [|split].
  - unfold revisit. cbn [WeightRuns.run foldl]. by rewrite Honce.
  - unfold revisit. rewrite Hlater; [reflexivity|vm_compute; reflexivity|].
    vm_compute. lia.
  - vm_compute; reflexivity.
Defined.

(** The configured template names a placeholder the service has no keyword
    for, so [str.format] raises. *)
Lemma failed_evaluation_saves_nothing_witness :
  let cfg :=
    {| WeightService.high_threshold := FNum 70;
       WeightService.medium_threshold := FNum 40;
       WeightService.filter_mode := py "selective";
       WeightService.weight_evaluation_prompt := py "{name}: {message}" |} in
  let result :=
    WeightService.evaluate_message (rt := rejecting_runtime) cfg
      (answering true (py "WEIGHT_SCORE: 80;WEIGHT_LEVEL: high"))
      ∅ 1 (py "u") (py "m1") (py "hello") [] in
  result.2.1.1 = false
  /\ result.1 = ∅
  /\ result.2.1.2 = FNum 0.
Proof.
  intros cfg result.
  assert (Hres : result = (result.1, (false, result.2.1.2, result.2.2)))
    by (vm_compute; reflexivity).
  destruct (failed_evaluation_saves_nothing (rt := rejecting_runtime) cfg
              (answering true (py "WEIGHT_SCORE: 80;WEIGHT_LEVEL: high"))
              ∅ 1 (py "u") (py "m1") (py "hello") [] _ _ _ Hres)
    as (Hmw & Hs & _).
  split; [vm_compute; reflexivity|]. split; [exact Hmw|exact Hs].
Defined.

(** An answer in the key-value form. *)
Lemma parsed_weight_has_score_witness :
  let content := py "  WEIGHT_SCORE: 80;WEIGHT_LEVEL: high  " in
  let d := WeightService.weight_pairs (rt := example_runtime) (strip content) in
  WeightService._parse_weight_response (rt := example_runtime) content = Ret (Some d)
  /\ is_Some (dict_get (py "weight_score") d)
  /\ (10 <= length (strip content))%nat.
Proof.
  intros content d.
  assert (Hparse : WeightService._parse_weight_response (rt := example_runtime) content
                   = Ret (Some d)) by (vm_compute; reflexivity).
  split; [exact Hparse|].
  destruct (parsed_weight_has_score (rt := example_runtime) content d Hparse)
    as (Hscore & _ & Hlen).
  split; [exact Hscore|exact Hlen].
Defined.

(** The classifier writes a score that [float()] rejects. *)
Lemma key_value_score_wins_witness :
  let cfg := example_config (py "selective") in
  let content := py "WEIGHT_SCORE: 1.2.3;WEIGHT_LEVEL: high" in
  let llm := answering true content in
  search_group (py "WEIGHT_SCORE:")
    (fun c => @py_isdecimal example_runtime c || (c =? 46)%N) (strip content)
  = Some (py "1.2.3")
  /\ (WeightService.evaluate_message (rt := example_runtime) cfg llm
        ∅ 1 (py "u") (py "m1") (py "ok") []).2.1
     = (true, FNum 0).
Proof.
  intros cfg content llm.
  assert (Hg : search_group (py "WEIGHT_SCORE:")
                 (fun c => @py_isdecimal example_runtime c || (c =? 46)%N)
                 (strip content)
               = Some (py "1.2.3")) by (vm_compute; reflexivity).
  split; [exact Hg|].
  assert (Hlen : (10 <= length (strip content))%nat) by (vm_compute; lia).
  assert (Hc : WeightService.cached ∅ (py "u") (py "m1") = None)
    by (vm_compute; reflexivity).
  assert (Hprompt : WeightService._build_weight_prompt (rt := example_runtime) cfg
                      (py "ok") []
                    = Ret (WeightService.default_prompt_head ++ py "ok"
                           ++ py ";上下文: " ++ []))
    by (vm_compute; reflexivity).
  pose proof (key_value_score_wins (rt := example_runtime) cfg llm content (py "1.2.3")
                ∅ 1 (py "u") (py "m1") (py "ok") [] _ Hlen Hg Hc Hprompt eq_refl)
    as Hwins.
  cbv zeta in Hwins. destruct Hwins as [_ [lv Heval]].
  rewrite Heval. vm_compute; reflexivity.
Defined.

(** A message and a context of 150 characters, stored in empty histories. *)
Lemma excerpts_stay_bounded_witness :
  let cfg := example_config (py "selective") in
  let llm := answering true (py "WEIGHT_SCORE: 80;WEIGHT_LEVEL: high") in
  let long := repeat 97%N 150 in
  let stored :=
    {| rec_message_id := py "m1"; rec_weight_score := FNum 80;
       rec_weight_level := JStr (py "high"); rec_timestamp := 1;
       rec_message_content := repeat 97%N 100; rec_context := repeat 97%N 100 |} in
  (WeightService.evaluate_message (rt := example_runtime) cfg llm
     ∅ 1 (py "u") (py "m1") long long).1 !! py "u" = Some [stored]
  /\ (length (rec_message_content stored) <= 100)%nat
  /\ (length (rec_context stored) <= 100)%nat.
Proof.
  intros cfg llm long stored.
  assert (Hl : (WeightService.evaluate_message (rt := example_runtime) cfg llm
                  ∅ 1 (py "u") (py "m1") long long).1 !! py "u" = Some [stored])
    by (vm_compute; reflexivity).
  split; [exact Hl|].
  refine (excerpts_stay_bounded (rt := example_runtime) cfg llm
            ∅ 1 (py "u") (py "m1") long long _ (py "u") [stored] stored Hl
            (list_elem_of_here _ _)).
  intros v l r Hv. rewrite lookup_empty in Hv. discriminate Hv.
Defined.

(** A history of a low and a high record under [selective]. *)
Lemma selected_messages_qualify_witness :
  let cfg := example_config (py "selective") in
  let older := {| rec_message_id := py "m1"; rec_weight_score := FNum 5;
                  rec_weight_level := JStr (py "low"); rec_timestamp := 1;
                  rec_message_content := py "hi"; rec_context := [] |} in
  let newer := {| rec_message_id := py "m2"; rec_weight_score := FNum 90;
                  rec_weight_level := JStr (py "high"); rec_timestamp := 2;
                  rec_message_content := py "我喜欢科幻小说"; rec_context := [] |} in
  let mw : WeightService.weights := <[py "u" := [older; newer]]> ∅ in
  (WeightService.get_filtered_messages (rt := example_runtime) cfg mw (py "u") 10).2
  = [py "m2"]
  /\ exists r,
       r ∈ default [] (mw !! py "u")
       /\ rec_message_id r = py "m2"
       /\ float_ge (rec_weight_score r) (FNum 70) = true.
Proof.
  intros cfg older newer mw.
  assert (Hsel : (WeightService.get_filtered_messages (rt := example_runtime) cfg mw
                    (py "u") 10).2 = [py "m2"]) by (vm_compute; reflexivity).
  split; [exact Hsel|].
  assert (Hin : py "m2" ∈ (WeightService.get_filtered_messages (rt := example_runtime)
                             cfg mw (py "u") 10).2).
  { rewrite Hsel. apply list_elem_of_here. }
  destruct (selected_messages_qualify (rt := example_runtime) cfg mw (py "u") 10
              (py "m2") Hin) as (_ & r & Hr & Hid & Hhigh & _).
  exists r. split; [exact Hr|]. split; [exact Hid|]. exact (Hhigh eq_refl).
Defined.

(** Three records that all pass under [balanced], and a limit of 2. *)
Lemma selected_messages_newest_first_witness :
  let cfg := example_config (py "balanced") in
  let record id t := {| rec_message_id := id; rec_weight_score := FNum 60;
                        rec_weight_level := JStr (py "medium"); rec_timestamp := t;
                        rec_message_content := py "ok"; rec_context := [] |} in
  let mw : WeightService.weights :=
    <[py "u" := [record (py "m1") 1; record (py "m3") 3; record (py "m2") 2]]> ∅ in
  (WeightService.get_filtered_messages (rt := example_runtime) cfg mw (py "u") 2).2
  = [py "m3"; py "m2"]
  /\ exists sel rest : list weight_record,
       (WeightService.get_filtered_messages (rt := example_runtime) cfg mw (py "u") 2).2
       = map rec_message_id sel
       /\ StronglySorted (fun a b => rec_timestamp b <= rec_timestamp a) sel
       /\ (forall a b, a ∈ sel -> b ∈ rest -> rec_timestamp b <= rec_timestamp a)
       /\ length sel = 2%nat.
Proof.
  intros cfg record mw.
  split; [vm_compute; reflexivity|].
  assert (Hmode : WeightService.filter_mode cfg <> py "disabled").
  { intros Heq. vm_compute in Heq. discriminate Heq. }
  destruct (selected_messages_newest_first (rt := example_runtime) cfg mw (py "u") 2
              Hmode ltac:(lia)) as (sel & rest & Hids & _ & Hsorted & Hcross & Hlen).
  exists sel, rest. split; [exact Hids|]. split; [exact Hsorted|].
  split; [exact Hcross|]. rewrite Hlen. vm_compute; reflexivity.
Defined.

(** The default thresholds 70 and 40 and a score of 85. *)
Lemma selective_admits_less_witness :
  float_ge (FNum 70) (FNum 40) = true
  /\ Plugin.should_update_impression (example_config (py "selective")) true (FNum 85)
     = true
  /\ Plugin.should_update_impression (example_config (py "balanced")) true (FNum 85)
     = true.
Proof.
  assert (Hhm : float_ge (FNum 70) (FNum 40) = true) by (vm_compute; reflexivity).
  assert (Hs : Plugin.should_update_impression (example_config (py "selective")) true
                 (FNum 85) = true) by (vm_compute; reflexivity).
  split; [exact Hhm|]. split; [exact Hs|].
  exact (selective_admits_less (FNum 70) (FNum 40) (FNum 85) [] true Hhm Hs).
Defined.

(** The classifier is down while the profile of a user is to be merged. *)
Lemma failed_merge_changes_nothing_witness :
  let row :=
    {| ui_user_id := py "u";
       personality_traits := py "开朗"; interests_hobbies := py "音乐";
       communication_style := []; emotional_tendencies := [];
       behavioral_patterns := []; values_attitudes := [];
       relationship_preferences := []; growth_development := [];
       affection_score := FNum 50; affection_level := py "一般";
       message_count := 3; last_interaction := 1; created_at := 1;
       updated_at := 1 |} in
  let db : TextImpressionService.impressions := <[py "u" := row]> ∅ in
  let result :=
    TextImpressionService.build_impression (rt := example_runtime)
      {| TextImpressionService.impression_template := [] |}
      (answering false (py "timeout"))
      db 2 (py "u") (py "I love reading sci-fi novels") [] in
  result.2.1 = false /\ result.1 = db.
Proof.
  intros row db result.
  assert (Hres : result = (result.1, (false, result.2.2)))
    by (vm_compute; reflexivity).
  split; [vm_compute; reflexivity|].
  exact (failed_merge_changes_nothing (rt := example_runtime) _ _ _ _ _ _ _ _ _ Hres).
Defined.

(** A user with three messages and an affection score of 62 on record. *)
Lemma successful_merge_frame_witness :
  let row :=
    {| ui_user_id := py "u";
       personality_traits := py "开朗"; interests_hobbies := py "音乐";
       communication_style := []; emotional_tendencies := [];
       behavioral_patterns := []; values_attitudes := [];
       relationship_preferences := []; growth_development := [];
       affection_score := FNum 62; affection_level := py "友好";
       message_count := 3; last_interaction := 1; created_at := 1;
       updated_at := 1 |} in
  let db : TextImpressionService.impressions := <[py "u" := row]> ∅ in
  let llm := answering true (py "interests_hobbies: 科幻小说;values_attitudes: 待观察") in
  let result :=
    TextImpressionService.build_impression (rt := example_runtime)
      {| TextImpressionService.impression_template := [] |} llm
      db 2 (py "u") (py "I love reading sci-fi novels") [] in
  result.2 = (true, py "印象构建成功")
  /\ message_count <$> result.1 !! py "u" = Some 4
  /\ affection_score <$> result.1 !! py "u" = Some (FNum 62)
  /\ created_at <$> result.1 !! py "u" = Some 1
  /\ updated_at <$> result.1 !! py "u" = Some 2.
Proof.
  intros row db llm result.
  assert (Hres : result = (result.1, (true, py "印象构建成功")))
    by (vm_compute; reflexivity).
  split; [rewrite Hres; reflexivity|].
  destruct (successful_merge_frame (rt := example_runtime) _ _ _ _ _ _ _ _ _ Hres)
    as (_ & _ & row' & Hrow & _ & _ & Hupdated & Hscore & _ & Hcreated & Hcount).
  assert (Hdb : db !! py "u" = Some row) by (vm_compute; reflexivity).
  rewrite Hdb in Hscore, Hcreated, Hcount.
  rewrite Hrow. cbn [fmap option_fmap option_map].
  rewrite Hupdated, Hscore, Hcreated, Hcount.
  repeat split; reflexivity.
Defined.

(** A table that holds the pair of user [u] and message [m1], recorded
    again. *)
Lemma recorded_pairs_stay_unique_witness :
  let tbl : MessageService.records :=
    [{| imr_user_id := py "u"; imr_message_id := py "m1";
        impression_id := None; processed_at := 1 |}] in
  (MessageService.record_processed_message tbl 2 (py "u") (py "m1") None).1 = tbl
  /\ NoDup (map (fun r => (imr_user_id r, imr_message_id r))
              (MessageService.record_processed_message tbl 2 (py "u") (py "m1") None).1)
  /\ tbl `prefix_of`
       (MessageService.record_processed_message tbl 2 (py "u") (py "m2") None).1.
Proof.
  intros tbl.
  assert (Hnd : NoDup (map (fun r => (imr_user_id r, imr_message_id r)) tbl))
    by apply NoDup_singleton.
  split; [vm_compute; reflexivity|]. split.
  - exact (proj1 (recorded_pairs_stay_unique tbl 2 (py "u") (py "m1") None Hnd)).
  - exact (proj2 (recorded_pairs_stay_unique tbl 2 (py "u") (py "m2") None Hnd)).
Defined.

(** Two bands that share the bound 40: the first one wins. *)
Lemma affection_level_in_band_witness :
  let bands := [((FNum 0, FNum 40), py "陌生"); ((FNum 40, FNum 80), py "友好")] in
  Helpers.get_affection_level (rt := example_runtime) bands (JFloat (FNum 40))
  = Ret (py "陌生")
  /\ (py "陌生" = py "一般"
      \/ exists lo hi f,
           ((lo, hi), py "陌生") ∈ bands
           /\ WeightService.py_float (rt := example_runtime) (JFloat (FNum 40)) = Ret f
           /\ float_ge f lo = true /\ float_ge hi f = true).
Proof.
  intros bands.
  assert (Hlevel : Helpers.get_affection_level (rt := example_runtime) bands
                     (JFloat (FNum 40)) = Ret (py "陌生"))
    by (vm_compute; reflexivity).
  split; [exact Hlevel|].
  exact (proj1 (affection_level_in_band (rt := example_runtime) bands
                  (JFloat (FNum 40)) (py "陌生") Hlevel)).
Defined.


(** ** The handler at work *)

(** The event of the examples is one of user 10001 and holds its own
    text. *)
Lemma example_event_located {rt : PyRuntime} (text : pystr) :
  Handler.locate_message (example_event text)
  = inr (py "10001", Handler.own (example_event text)).
Proof. reflexivity. Qed.

(** An event whose text is empty. *)
Lemma handle_changes_nothing_unless_done_witness :
  let run :=
    Handler.handle (rt := example_runtime) (example_config (py "selective"))
      {| TextImpressionService.impression_template := [] |}
      example_llm_config example_provider example_affection
      empty_world 1 (py "m1") (example_event (py "   ")) in
  run.2 = py "消息内容为空" /\ run.1 = empty_world.
Proof.
  intros run.
  assert (Hanswer : run.2 = py "消息内容为空") by (vm_compute; reflexivity).
  split; [exact Hanswer|].
  refine (handle_changes_nothing_unless_done (rt := example_runtime)
            (example_config (py "selective"))
            {| TextImpressionService.impression_template := [] |}
            example_llm_config example_provider example_affection
            empty_world 1 (py "m1") (example_event (py "   ")) run.1 run.2 _ _).
  - apply surjective_pairing.
  - rewrite Hanswer. intros Heq. apply (f_equal (take 1)) in Heq.
    vm_compute in Heq. discriminate Heq.
Defined.

(** The first message of user 10001, scored 80 under the default
    thresholds. *)
Lemma handled_message_is_recorded_witness :
  let run :=
    Handler.handle (rt := example_runtime) (example_config (py "selective"))
      {| TextImpressionService.impression_template := [] |}
      example_llm_config example_provider example_affection
      empty_world 1 (py "m1") (example_event (py "我喜欢科幻小说")) in
  run.2 = py "印象和好感度更新完成"
  /\ MessageService.is_message_processed (Handler.records empty_world)
       (py "10001") (py "m1") = false
  /\ MessageService.is_message_processed (Handler.records run.1)
       (py "10001") (py "m1") = true.
Proof.
  intros run.
  assert (Hdone : run.2 = py "印象和好感度更新完成") by (vm_compute; reflexivity).
  split; [exact Hdone|].
  assert (Hrun : run = (run.1, py "印象和好感度更新完成")).
  { rewrite <- Hdone. apply surjective_pairing. }
  destruct (handled_message_is_recorded (rt := example_runtime)
              (example_config (py "selective"))
              {| TextImpressionService.impression_template := [] |}
              example_llm_config example_provider example_affection
              empty_world 1 (py "m1") (example_event (py "我喜欢科幻小说")) run.1 Hrun)
    as (user & m & Hloc & Hfresh & Hrec & _).
  rewrite example_event_located in Hloc. injection Hloc as <- <-.
  split; [exact Hfresh|exact Hrec].
Defined.

(** The same message, seen through the row of the user. *)
Lemma handled_message_is_counted_witness :
  let run :=
    Handler.handle (rt := example_runtime) (example_config (py "selective"))
      {| TextImpressionService.impression_template := [] |}
      example_llm_config example_provider example_affection
      empty_world 1 (py "m1") (example_event (py "我喜欢科幻小说")) in
  run.2 = py "印象和好感度更新完成"
  /\ exists st,
       Handler.states run.1 !! py "10001" = Some st
       /\ total_messages st = 1
       /\ processed_messages st = 1
       /\ last_message_id st = Some (py "m1").
Proof.
  intros run.
  assert (Hdone : run.2 = py "印象和好感度更新完成") by (vm_compute; reflexivity).
  split; [exact Hdone|].
  assert (Hrun : run = (run.1, py "印象和好感度更新完成")).
  { rewrite <- Hdone. apply surjective_pairing. }
  destruct (handled_message_is_counted (rt := example_runtime)
              (example_config (py "selective"))
              {| TextImpressionService.impression_template := [] |}
              example_llm_config example_provider example_affection
              empty_world 1 (py "m1") (example_event (py "我喜欢科幻小说")) run.1 Hrun)
    as (user & m & st & Hloc & Hst & Htotal & Hprocessed & Hlast & _).
  rewrite example_event_located in Hloc. injection Hloc as <- <-.
  exists st. split; [exact Hst|]. split; [exact Htotal|].
  split; [exact Hprocessed|exact Hlast].
Defined.

(** The message itself is the context selected after its evaluation. *)
Lemma context_messages_are_recorded_witness :
  let run :=
    Handler.handle (rt := example_runtime) (example_config (py "selective"))
      {| TextImpressionService.impression_template := [] |}
      example_llm_config example_provider example_affection
      empty_world 1 (py "m1") (example_event (py "我喜欢科幻小说")) in
  run.2 = py "印象和好感度更新完成"
  /\ (WeightService.get_filtered_messages (rt := example_runtime)
        (example_config (py "selective")) (Handler.weights run.1) (py "10001") 10).2
     = [py "m1"]
  /\ MessageService.is_message_processed (Handler.records run.1)
       (py "10001") (py "m1") = true.
Proof.
  intros run.
  assert (Hdone : run.2 = py "印象和好感度更新完成") by (vm_compute; reflexivity).
  split; [exact Hdone|].
  assert (Hrun : run = (run.1, py "印象和好感度更新完成")).
  { rewrite <- Hdone. apply surjective_pairing. }
  assert (Hsel : (WeightService.get_filtered_messages (rt := example_runtime)
                    (example_config (py "selective")) (Handler.weights run.1)
                    (py "10001") 10).2 = [py "m1"]) by (vm_compute; reflexivity).
  split; [exact Hsel|].
  destruct (context_messages_are_recorded (rt := example_runtime)
              (example_config (py "selective"))
              {| TextImpressionService.impression_template := [] |}
              example_llm_config example_provider example_affection
              empty_world 1 (py "m1") (example_event (py "我喜欢科幻小说")) run.1
              (py "m1") Hrun)
    as (user & m & Hloc & Hrecorded).
  rewrite example_event_located in Hloc. injection Hloc as <- <-.
  apply Hrecorded. rewrite Hsel. apply list_elem_of_here.
Defined.

(** The score of 80 under a high threshold of 90: the user gets no row. *)
Lemma unadmitted_message_skips_merge_witness :
  let strict :=
    {| WeightService.high_threshold := FNum 90;
       WeightService.medium_threshold := FNum 40;
       WeightService.filter_mode := py "selective";
       WeightService.weight_evaluation_prompt := [] |} in
  let run :=
    Handler.handle (rt := example_runtime) strict
      {| TextImpressionService.impression_template := [] |}
      example_llm_config example_provider example_affection
      empty_world 1 (py "m1") (example_event (py "我喜欢科幻小说")) in
  run.2 = py "印象和好感度更新完成"
  /\ Handler.impressions run.1 !! py "10001" = None.
Proof.
  intros strict run.
  assert (Hdone : run.2 = py "印象和好感度更新完成") by (vm_compute; reflexivity).
  split; [exact Hdone|].
  assert (Hrun : run = (run.1, py "印象和好感度更新完成")).
  { rewrite <- Hdone. apply surjective_pairing. }
  destruct (unadmitted_message_skips_merge (rt := example_runtime) strict
              {| TextImpressionService.impression_template := [] |}
              example_llm_config example_provider example_affection
              empty_world 1 (py "m1") (example_event (py "我喜欢科幻小说")) run.1 Hrun)
    as (user & m & Hloc & Hskip).
  rewrite example_event_located in Hloc. injection Hloc as <- <-.
  cbv zeta in Hskip. rewrite Hskip; [vm_compute; reflexivity|].
  right. left. split; vm_compute; reflexivity.
Defined.

(** The first message of user 10001 gets the id 1000 from the clock; the
    same event is handled again in that millisecond, and in the next. *)
Lemma dedup_is_keyed_on_message_id_witness :
  let handle :=
    Handler.handle (rt := example_runtime) (example_config (py "selective"))
      {| TextImpressionService.impression_template := [] |}
      example_llm_config example_provider example_affection in
  let event := example_event (py "我喜欢科幻小说") in
  let run := handle empty_world 1 (py "1000") event in
  run.2 = py "印象和好感度更新完成"
  /\ handle run.1 2 (py "1000") event = (run.1, py "消息已处理，跳过")
  /\ (handle run.1 2 (py "1001") event).2 = py "印象和好感度更新完成"
  /\ total_messages <$> Handler.states (handle run.1 2 (py "1001") event).1 !! py "10001"
     = Some 2.
Proof.
  intros handle event run.
  assert (Hdone : run.2 = py "印象和好感度更新完成") by (vm_compute; reflexivity).
  split; [exact Hdone|].
  assert (Hrun : run = (run.1, py "印象和好感度更新完成")).
  { rewrite <- Hdone. apply surjective_pairing. }
  split; [|split; vm_compute; reflexivity].
  exact (proj1 (dedup_is_keyed_on_message_id (rt := example_runtime)
                  (example_config (py "selective"))
                  {| TextImpressionService.impression_template := [] |}
                  example_llm_config example_provider example_affection
                  empty_world 1 (py "1000") event run.1 2 Hrun)).
Defined.
